(** * offvsix: the download pipeline of [offvsix/main.py]

    A shallow embedding of the command line tool that resolves a
    [publisher.extension] identifier against the Visual Studio Marketplace
    and stores the package on disk, followed by the properties its
    specification states.

    Conventions of the model.
    - A Python [str] is the list of its Unicode code points.
    - Python functions are computations over an explicit [world]: the two
      tables of the file store, the lines written by [print], and the log
      of HTTP exchanges.
    - A computation ends a statement normally, leaves the enclosing
      function through [return], or raises.
    - The network is a function from the exchanges so far and the request
      to a reply; [json.dumps] and [str()] on objects that are not strings
      are library functions and are taken as they come.
    - [response.json()] gives a document or raises; what it raises beside
      [ValueError] (a [RecursionError] on a body nested too deep) is not
      caught by the program.
    - The file store is a table of files and a table of directories. The
      operating system decides on every call that changes it:
      [os.makedirs] makes the directory and those missing above it, or
      raises; [open(..., "wb")] and the write that follows store the
      bytes, or raise with nothing or a part of them stored. The
      properties hold for every such operating system.
    - [OSError] stands for the class with its subclasses
      ([FileNotFoundError], [NotADirectoryError], [IsADirectoryError],
      [PermissionError], ...): no [except] clause of the program names one.
    - POSIX path rules are used for [os.path.join]. *)

From Stdlib Require Import ZArith NArith List Strings.String Strings.Ascii Strings.Byte.
From Stdlib Require Import Floats.SpecFloat.
From stdpp Require Import base option list gmap.

Set Warnings "-register-all".
Local Open Scope N_scope.

(** ** Strings *)

Abbreviation str := (list N).

Definition lit (s : string) : str :=
  map N_of_ascii (list_ascii_of_string s).

Arguments lit : simpl never.

Definition dot : N := 46.
Definition slash : N := 47.

(** Code points that [str.strip()] removes (those with [str.isspace()]). *)
Definition isspace (c : N) : bool :=
  ((0x09 <=? c) && (c <=? 0x0D)) || ((0x1C <=? c) && (c <=? 0x20))
  || (c =? 0x85) || (c =? 0xA0) || (c =? 0x1680)
  || ((0x2000 <=? c) && (c <=? 0x200A))
  || (c =? 0x2028) || (c =? 0x2029) || (c =? 0x202F) || (c =? 0x205F)
  || (c =? 0x3000).

Fixpoint lstrip (s : str) : str :=
  match s with
  | [] => []
  | c :: r => if isspace c then lstrip r else s
  end.

Definition rstrip (s : str) : str := rev (lstrip (rev s)).

Definition strip (s : str) : str := rstrip (lstrip s).

(** [c in s] for a one-character [c]. *)
Definition contains (c : N) (s : str) : bool := existsb (N.eqb c) s.

(** The text before the first [sep] and, when there is one, the text
    after it. *)
Fixpoint break_at (sep : N) (s : str) : str * option str :=
  match s with
  | [] => ([], None)
  | c :: r =>
      if c =? sep then ([], Some r)
      else let '(a, b) := break_at sep r in (c :: a, b)
  end.

(** [s.split(sep, 1)] for a one-character [sep]. *)
Definition split1 (sep : N) (s : str) : list str :=
  match break_at sep s with
  | (a, None) => [a]
  | (a, Some b) => [a; b]
  end.

(** [c * n] *)
Definition times (c : N) (n : nat) : str := repeat c n.

Definition startswith (c : N) (s : str) : bool :=
  match s with
  | x :: _ => x =? c
  | [] => false
  end.

Definition endswith (c : N) (s : str) : bool := startswith c (rev s).

(** [posixpath.join a b] *)
Definition os_path_join (a b : str) : str :=
  if startswith slash b then b
  else if match a with [] => true | _ => endswith slash a end then a ++ b
  else a ++ [slash] ++ b.

(** ** JSON documents as Python objects *)

(** What [response.json()] returns. [JObj] lists the items of a dict; the
    keys of a dict are distinct, and a lookup takes the first item with the
    key. A float is kept as its IEEE value: only its truth value matters
    here. *)
Inductive json : Type :=
  | JNull
  | JBool (b : bool)
  | JInt (z : Z)
  | JFloat (f : spec_float)
  | JStr (s : str)
  | JArr (l : list json)
  | JObj (m : list (str * json)).

(** Python truth value. *)
Definition truthy (v : json) : bool :=
  match v with
  | JNull => false
  | JBool b => b
  | JInt z => negb (z =? 0)%Z
  | JFloat (S754_zero _) => false
  | JFloat _ => true
  | JStr s => match s with [] => false | _ => true end
  | JArr l => match l with [] => false | _ => true end
  | JObj m => match m with [] => false | _ => true end
  end.

(** Truth value of an optional string ([None] and [""] are false). *)
Definition truthy_opt (o : option str) : bool :=
  match o with
  | Some (_ :: _) => true
  | _ => false
  end.

Inductive exn : Type :=
  | AttributeError
  | IndexError
  | TypeError
  | KeyError
  | ValueError
  | OSError
  | UnicodeDecodeError
  | RecursionError.

Inductive res (A : Type) : Type :=
  | Ok (a : A)
  | Exc (e : exn).
Arguments Ok {A} a.
Arguments Exc {A} e.

Fixpoint assoc (k : str) (m : list (str * json)) : option json :=
  match m with
  | [] => None
  | (k', v) :: r => if decide (k' = k) then Some v else assoc k r
  end.

(** [o.get(k)]: only a dict has the method; a missing key gives [None]. *)
Definition py_get (o : json) (k : str) : res json :=
  match o with
  | JObj m => Ok (default JNull (assoc k m))
  | _ => Exc AttributeError
  end.

(** [a or b] *)
Definition py_or (a b : json) : json := if truthy a then a else b.

(** [o[0]]: the first element of a list, the first character of a string;
    a dict is looked up at the key [0], which no JSON object has; numbers,
    booleans and [None] cannot be subscripted. *)
Definition py_item0 (o : json) : res json :=
  match o with
  | JArr (x :: _) => Ok x
  | JArr [] => Exc IndexError
  | JStr (c :: _) => Ok (JStr [c])
  | JStr [] => Exc IndexError
  | JObj _ => Exc KeyError
  | _ => Exc TypeError
  end.

(** ** Text files *)

Definition cont (b : N) : bool := (0x80 <=? b) && (b <=? 0xBF).

Definition lead3 (b0 b1 : N) : bool :=
  ((b0 =? 0xE0) && (0xA0 <=? b1) && (b1 <=? 0xBF))
  || ((0xE1 <=? b0) && (b0 <=? 0xEC) && cont b1)
  || ((b0 =? 0xED) && (0x80 <=? b1) && (b1 <=? 0x9F))
  || ((0xEE <=? b0) && (b0 <=? 0xEF) && cont b1).

Definition lead4 (b0 b1 : N) : bool :=
  ((b0 =? 0xF0) && (0x90 <=? b1) && (b1 <=? 0xBF))
  || ((0xF1 <=? b0) && (b0 <=? 0xF3) && cont b1)
  || ((b0 =? 0xF4) && (0x80 <=? b1) && (b1 <=? 0x8F)).

(** The strict UTF-8 codec: [None] where it raises. *)
Fixpoint utf8_decode (bs : list N) : option str :=
  match bs with
  | [] => Some []
  | b0 :: r0 =>
    if b0 <? 0x80 then cons b0 <$> utf8_decode r0
    else
      match r0 with
      | [] => None
      | b1 :: r1 =>
        if (0xC2 <=? b0) && (b0 <=? 0xDF) && cont b1
        then cons ((b0 - 0xC0) * 64 + (b1 - 0x80)) <$> utf8_decode r1
        else
          match r1 with
          | [] => None
          | b2 :: r2 =>
            if lead3 b0 b1 && cont b2
            then cons ((b0 - 0xE0) * 4096 + (b1 - 0x80) * 64 + (b2 - 0x80))
                   <$> utf8_decode r2
            else
              match r2 with
              | [] => None
              | b3 :: r3 =>
                if lead4 b0 b1 && cont b2 && cont b3
                then cons ((b0 - 0xF0) * 262144 + (b1 - 0x80) * 4096
                           + (b2 - 0x80) * 64 + (b3 - 0x80))
                       <$> utf8_decode r3
                else None
              end
          end
      end
  end.

(** Universal newlines: a carriage return, alone or followed by a line
    feed, is read as one line feed. *)
Fixpoint translate_newlines (after_cr : bool) (s : str) : str :=
  match s with
  | [] => []
  | c :: r =>
      if c =? 13 then 10 :: translate_newlines true r
      else if (c =? 10) && after_cr then translate_newlines false r
      else c :: translate_newlines false r
  end.

(** Lines with their line feed kept; [cur] is the line being read,
    last character first. *)
Fixpoint lines_from (cur : str) (s : str) : list str :=
  match s with
  | [] => match cur with [] => [] | _ => [rev cur] end
  | c :: r =>
      if c =? 10 then rev (c :: cur) :: lines_from [] r
      else lines_from (c :: cur) r
  end.

(** [f.readlines()] on the decoded text of a file. *)
Definition readlines (text : str) : list str :=
  lines_from [] (translate_newlines false text).

(** ** HTTP *)

Inductive method : Type := POST | GET.

Record request : Type := {
  req_method : method;
  req_url : str;
  req_headers : list (str * str);
  req_data : option str;
  req_timeout : Z;
  req_proxies : list (str * str)
}.

(** [response_json] is what [response.json()] does: it gives the decoded
    document or raises, [ValueError] on a body that is no JSON,
    [RecursionError] on one nested too deep. *)
Record response : Type := {
  status_code : Z;
  content : list byte;
  response_json : res json
}.

(** What [session.post] and [session.get] come back with: a response, or
    a [requests.RequestException] with its text (a timeout is one). *)
Inductive reply : Type :=
  | Response (r : response)
  | RequestException (e : str).

Record Session : Type := { session_proxies : list (str * str) }.

(** ** The world and computations over it *)

Record world : Type := {
  files : gmap str (list byte);
  dirs : gset str;
  stdout : list str;
  net_log : list (request * reply)
}.

Inductive flow (A : Type) : Type :=
  | Next (a : A)
  | Return
  | Raise (e : exn).
Arguments Next {A} a.
Arguments Return {A}.
Arguments Raise {A} e.

Definition M (A : Type) : Type := world -> flow A * world.

Definition ret {A} (a : A) : M A := fun w => (Next a, w).

Definition bind {A B} (c : M A) (k : A -> M B) : M B :=
  fun w =>
    match c w with
    | (Next a, w') => k a w'
    | (Return, w') => (Return, w')
    | (Raise e, w') => (Raise e, w')
    end.

Notation "'let!' x ':=' c 'in' k" := (bind c (fun x => k))
  (at level 10, x name, c at level 100, k at level 200).
Notation "c >> k" := (bind c (fun _ => k))
  (at level 90, right associativity).

(** The [return] statement. *)
Definition return_ {A} : M A := fun w => (Return, w).

Definition raise {A} (e : exn) : M A := fun w => (Raise e, w).

Definition lift {A} (r : res A) : M A :=
  match r with
  | Ok a => ret a
  | Exc e => raise e
  end.

(** [try: c except (...): h] where [handles] tells the listed classes. *)
Definition try_except {A} (c : M A) (handles : exn -> bool) (h : M A) : M A :=
  fun w =>
    match c w with
    | (Raise e, w') => if handles e then h w' else (Raise e, w')
    | r => r
    end.

(** A call: the callee's [return] ends the callee only. *)
Definition invoke (c : M unit) : M unit :=
  fun w =>
    match c w with
    | (Return, w') => (Next tt, w')
    | r => r
    end.

Fixpoint for_each {A} (l : list A) (body : A -> M unit) : M unit :=
  match l with
  | [] => ret tt
  | x :: r => body x >> for_each r body
  end.

(** How a function called from outside ends. *)
Inductive outcome : Type :=
  | Returned
  | Raised (e : exn).

Definition run (c : M unit) (w : world) : outcome * world :=
  match c w with
  | (Raise e, w') => (Raised e, w')
  | (_, w') => (Returned, w')
  end.

(** Every step of [c] takes a world to one related to it by [R]. *)
Definition steps {A} (R : world -> world -> Prop) (c : M A) : Prop :=
  forall w, R w (snd (c w)).

(** The built-in [print]. *)
Definition py_print (msg : str) : M unit :=
  fun w =>
    (Next tt,
     {| files := files w; dirs := dirs w;
        stdout := stdout w ++ [msg]; net_log := net_log w |}).

Definition os_path_exists (path : str) : M bool :=
  fun w =>
    (Next (bool_decide (is_Some (files w !! path))
           || bool_decide (path ∈ dirs w)), w).

(** How [with open(path, "wb") as f: f.write(bytes)] ends: the file holds
    the bytes; or it cannot be opened and nothing changes; or it is opened
    and the write breaks off after [n] bytes. The last two raise
    [OSError]. *)
Inductive saving : Type :=
  | Stored
  | Refused
  | Torn (n : nat).

(** The operating system behind the calls that change the file store. Its
    answers depend on the store as it is and on the path (on permissions,
    on what a path leads through, on the room left).
    - [makes]: whether [os.makedirs(path)] makes [path]; it raises
      [OSError] where not.
    - [makes_above]: the directories above [path] that [os.makedirs(path)]
      makes on its way, those that were missing.
    - [saves]: how opening [path] for writing and writing the bytes
      ends. *)
Record system : Type := {
  makes : gmap str (list byte) -> gset str -> str -> bool;
  makes_above : gmap str (list byte) -> gset str -> str -> gset str;
  saves : gmap str (list byte) -> gset str -> str -> list byte -> saving
}.

(** [with open(path, 'r', encoding='utf-8') as f: f.readlines()]; it
    raises where no file is at [path] (a directory may be) and where the
    bytes are not UTF-8. *)
Definition read_lines (path : str) : M (list str) :=
  fun w =>
    match files w !! path with
    | None => (Raise OSError, w)
    | Some bytes =>
        match utf8_decode (map Byte.to_N bytes) with
        | None => (Raise UnicodeDecodeError, w)
        | Some text => (Next (readlines text), w)
        end
    end.

(** ** The downloader *)

Record VSCodeExtensionDownloader : Type := {
  extension : option str;
  proxy : option str;
  version : option str;
  destination : option str;
  no_cache : bool;
  print : bool
}.

Definition _print (self : VSCodeExtensionDownloader) (msg : str) : M unit :=
  if print self then py_print msg else ret tt.

Definition api_url : str :=
  lit "https://marketplace.visualstudio.com/_apis/public/gallery/extensionquery".

(** The dict handed to [json.dumps]. *)
Definition query_document (publisher extension_name : str) : json :=
  JObj [(lit "filters",
         JArr [JObj [(lit "criteria",
                      JArr [JObj [(lit "filterType", JInt 7);
                                  (lit "value",
                                   JStr (publisher ++ [dot] ++ extension_name))]])]]);
        (lit "flags", JInt 914)].

Definition headers : list (str * str) :=
  [(lit "Content-Type", lit "application/json");
   (lit "Accept", lit "application/json;api-version=3.0-preview.1");
   (lit "User-Agent", lit "Offline VSIX/1.0")].

Definition invalid_identifier (ext : str) : str :=
  lit "Invalid extension identifier: " ++ ext
  ++ lit ". Use the form publisher.extension".

Definition extension_not_found (publisher extension_name : str) : str :=
  lit "Extension not found: " ++ publisher ++ [dot] ++ extension_name.

(** [f"{publisher}.{extension_name}-{version}.vsix"] *)
Definition vsix_name (publisher extension_name version : str) : str :=
  publisher ++ [dot] ++ extension_name ++ lit "-" ++ version ++ lit ".vsix".

Definition download_url (publisher extension_name version : str) : str :=
  lit "https://" ++ publisher
  ++ lit ".gallery.vsassets.io/_apis/public/gallery/publisher/" ++ publisher
  ++ lit "/extension/" ++ extension_name ++ lit "/" ++ version
  ++ lit "/assetbyname/Microsoft.VisualStudio.Services.VSIXPackage".

(** The exception classes of the [except] clause around the descent. *)
Definition structural (e : exn) : bool :=
  match e with
  | AttributeError | IndexError | TypeError => true
  | _ => false
  end.

(** [except ValueError]: the class and its subclass in the model. *)
Definition value_error (e : exn) : bool :=
  match e with
  | ValueError | UnicodeDecodeError => true
  | _ => false
  end.

(** ** Observations on worlds *)

(** [w] after the lines [msgs] went to standard output. *)
Definition printed (w : world) (msgs : list str) : world :=
  {| files := files w; dirs := dirs w; stdout := stdout w ++ msgs;
     net_log := net_log w |}.

(** [w] after [self._print] was called on each of [msgs]. *)
Definition say (self : VSCodeExtensionDownloader) (msgs : list str)
    (w : world) : world :=
  if print self then printed w msgs else w.

(** [w] after the exchange of [req] and [rep]. *)
Definition logged (w : world) (req : request) (rep : reply) : world :=
  {| files := files w; dirs := dirs w; stdout := stdout w;
     net_log := net_log w ++ [(req, rep)] |}.

(** [w] after [bytes] were written at [path]. *)
Definition written (w : world) (path : str) (bytes : list byte) : world :=
  {| files := <[path := bytes]> (files w); dirs := dirs w;
     stdout := stdout w; net_log := net_log w |}.

Definition present (w : world) (path : str) : bool :=
  bool_decide (is_Some (files w !! path)) || bool_decide (path ∈ dirs w).

Definition same_method (a b : method) : bool :=
  match a, b with
  | POST, POST | GET, GET => true
  | _, _ => false
  end.

(** The requests of kind [m] among the exchanges [l]. *)
Definition requests_of (m : method) (l : list (request * reply)) : list request :=
  List.filter (fun r => same_method (req_method r) m) (map fst l).

(** From [w] to [w'] the lines [msgs] were printed, each with [P]. *)
Definition emits (P : str -> Prop) (w w' : world) : Prop :=
  exists msgs, stdout w' = stdout w ++ msgs /\ Forall P msgs.

(** A line that does not begin with the letter P; the usage line does. *)
Definition plain (m : str) : Prop := startswith 80 m = false.

(** What [_print] is given up to the metadata request. *)
Definition opening (proxy : option str) : list str :=
  (if truthy_opt proxy then [lit "Using proxy: " ++ default [] proxy] else [])
  ++ [lit "Querying Marketplace API..."].

(** ** The specification's notions *)

(** [publisher] is the text before the first dot of [ext] and [name] all
    that follows that dot. *)
Definition first_dot (ext publisher name : str) : Prop :=
  ext = publisher ++ dot :: name /\ ~ In dot publisher.

(** An identifier without a dot, or with nothing before or nothing after
    its first dot. *)
Definition malformed (ext : str) : Prop :=
  ~ In dot ext \/
  exists publisher name,
    first_dot ext publisher name /\ (publisher = [] \/ name = []).

(** One level of the descent: the member [k] of an object, when it is
    there and not empty. *)
Definition member (k : str) (o : json) : option json :=
  match o with
  | JObj m =>
      match assoc k m with
      | Some v => if truthy v then Some v else None
      | None => None
      end
  | _ => None
  end.

(** One level of the descent: the element [0] of a list. *)
Definition first (o : json) : option json :=
  match o with
  | JArr (x :: _) => Some x
  | _ => None
  end.

(** [results[0].extensions[0].versions[0].version] as a chain of optional
    lookups: [None] when a level is absent or empty. *)
Definition latest_version (d : json) : option json :=
  r ← member (lit "results") d; r0 ← first r;
  e ← member (lit "extensions") r0; e0 ← first e;
  v ← member (lit "versions") e0; v0 ← first v;
  member (lit "version") v0.

(** A dict with something in it. *)
Definition is_object (o : json) : bool :=
  match o with
  | JObj (_ :: _) => true
  | _ => false
  end.

(** The descent meets a dict where it subscripts with [0]: under
    [results], [extensions] or [versions]. *)
Definition object_for_list (d : json) : bool :=
  match member (lit "results") d with
  | None => false
  | Some r =>
      is_object r ||
      match first r with
      | None => false
      | Some r0 =>
          match member (lit "extensions") r0 with
          | None => false
          | Some e =>
              is_object e ||
              match first e with
              | None => false
              | Some e0 =>
                  match member (lit "versions") e0 with
                  | None => false
                  | Some v => is_object v
                  end
              end
          end
      end
  end.

(** The version a run settles on: the override when one is given (and not
    empty), else what the descent finds. *)
Definition resolved (specific_version : option str) (d : json) : option json :=
  if truthy_opt specific_version then Some (JStr (default [] specific_version))
  else latest_version d.

(** What the [click] decorators make of a command line: an option that is
    not given has its declared default. [given_no_print] is [None] when the
    flag [--no-print] is not on the command line, and holds the value
    [click] assigns to the flag when it is. *)
Record command_line : Type := {
  given_extension : option str;
  given_version : option str;
  given_destination : option str;
  given_no_cache : bool;
  given_no_print : option bool;
  given_file : option str;
  given_proxy : option str
}.

(** The declared default of [--no-print] is [True]. *)
Definition no_print_value (c : command_line) : bool :=
  default true (given_no_print c).

Definition usage : str :=
  lit "Please provide either an extension or a file containing extensions.".

(** ** Relations between worlds *)

(** The two worlds differ at most in what was printed. *)
Definition same_store (w w' : world) : Prop :=
  files w = files w' /\ dirs w = dirs w' /\ net_log w = net_log w'.

(** Two computations that agree, outcome and world, up to what is
    printed. *)
Definition agree {A} (c c' : M A) : Prop :=
  forall w w', same_store w w' ->
    fst (c w) = fst (c' w') /\ same_store (snd (c w)) (snd (c' w')).

(** Nothing that was there is gone: every file path and every directory
    of [w] is one of [w']. *)
Definition grows (w w' : world) : Prop :=
  dom (files w) ⊆ dom (files w') /\ dirs w ⊆ dirs w'.

(** A line of a list file with nothing but white space. *)
Definition blank (line : str) : bool :=
  match strip line with
  | [] => true
  | _ => false
  end.

(** ** Data for the examples *)

Definition empty_world : world :=
  {| files := ∅; dirs := ∅; stdout := []; net_log := [] |}.

(** A marketplace answer with one version. *)
Definition document (version : str) : json :=
  JObj [(lit "results",
    JArr [JObj [(lit "extensions",
      JArr [JObj [(lit "versions",
        JArr [JObj [(lit "version", JStr version)]])]])]])].

(** The answer [{"results": {"a": 1}}]. *)
Definition results_object : json :=
  JObj [(lit "results", JObj [(lit "a", JInt 1)])].

Definition ok (d : json) : reply :=
  Response {| status_code := 200; content := []; response_json := Ok d |}.

Definition package (bytes : list byte) : reply :=
  Response {| status_code := 200; content := bytes;
              response_json := Exc ValueError |}.

(** An answer with status 200 and a body nested too deep for
    [response.json()]. *)
Definition too_deep : reply :=
  Response {| status_code := 200; content := [];
              response_json := Exc RecursionError |}.

Definition timed_out : reply := RequestException (lit "timed out").

(** An answer with the status [code] and nothing else. *)
Definition status_only (code : Z) : reply :=
  Response {| status_code := code; content := [];
              response_json := Exc ValueError |}.

(** The answer [{"results": []}]. *)
Definition no_results : json := JObj [(lit "results", JArr [])].

(** A network that answers every POST with [metadata] and every GET with
    [artifact]. *)
Definition server (metadata artifact : reply)
    : list (request * reply) -> request -> reply :=
  fun _ req =>
    match req_method req with
    | POST => metadata
    | GET => artifact
    end.

(** A network whose first answer is [first_answer] and that goes on as
    [then_]. *)
Definition first_then (first_answer : reply)
    (then_ : list (request * reply) -> request -> reply)
    : list (request * reply) -> request -> reply :=
  fun log req =>
    match log with
    | [] => first_answer
    | _ => then_ log req
    end.

(** The directories a path leads through: what stands before each of its
    separators, the root and doubled separators left out. [before] is the
    text read so far, last character first. *)
Fixpoint above_from (before path : str) : list str :=
  match path with
  | [] => []
  | c :: r =>
      (if (c =? slash) && negb (startswith slash before)
          && match before with [] => false | _ => true end
       then [rev before] else [])
      ++ above_from (c :: before) r
  end.

Definition holds_file (fs : gmap str (list byte)) (path : str) : bool :=
  bool_decide (is_Some (fs !! path)).

(** An operating system with no permissions in the way and room enough.
    [os.makedirs] makes the directory with those missing above it, unless
    something is at the path already or a file stands on the way to it;
    a file can be written where no directory stands at its path and the
    directory it lies in is there (the working directory and the root
    are). *)
Definition posix : system :=
  {| makes := fun fs ds path =>
       negb (holds_file fs path) && negb (bool_decide (path ∈ ds))
       && negb (existsb (holds_file fs) (above_from [] path));
     makes_above := fun fs ds path =>
       if existsb (holds_file fs) (above_from [] path) then ∅
       else list_to_set (above_from [] path);
     saves := fun fs ds path _ =>
       if bool_decide (path ∈ ds) then Refused
       else match last (above_from [] path) with
            | None => Stored
            | Some dir => if bool_decide (dir ∈ ds) then Stored else Refused
            end |}.

(** An operating system that refuses every change of the store. *)
Definition read_only : system :=
  {| makes := fun _ _ _ => false;
     makes_above := fun _ _ _ => ∅;
     saves := fun _ _ _ _ => Refused |}.

(** The examples do not depend on the two library functions; they are run
    with these. *)
Definition dumps_any : json -> str := fun _ => lit "{}".
Definition str_any : json -> str := fun _ => lit "?".

Definition zip_bytes : list byte := [x50; x4b; x03; x04].

(** A list file with the two lines [pub.a] and [pub.b]. *)
Definition two_lines : list byte :=
  list_byte_of_string "pub.a" ++ [x0a] ++ list_byte_of_string "pub.b" ++ [x0a].

(** A list file with the lines [badid], an empty one, and [nodot]. *)
Definition no_identifiers : list byte :=
  list_byte_of_string "badid" ++ [x0a; x0a] ++ list_byte_of_string "nodot"
  ++ [x0a].

Definition downloader (identifier : string) (override : option str)
    (force : bool) : VSCodeExtensionDownloader :=
  {| extension := Some (lit identifier); proxy := None; version := override;
     destination := None; no_cache := force; print := true |}.

Section Pipeline.

(** [json.dumps] *)
Variable json_dumps : json -> str.
(** [str(o)] for an object [o] that is not a string *)
Variable str_object : json -> str.
(** the network: the exchanges so far and the request give the reply *)
Variable send : list (request * reply) -> request -> reply.
(** the operating system *)
Variable os : system.

(** [w] after [os.makedirs(path)], whether it raised or not. *)
Definition made (w : world) (path : str) : world :=
  {| files := files w;
     dirs := (if makes os (files w) (dirs w) path then {[path]} else ∅)
             ∪ makes_above os (files w) (dirs w) path ∪ dirs w;
     stdout := stdout w; net_log := net_log w |}.

Definition os_makedirs (path : str) : M unit :=
  fun w =>
    (if makes os (files w) (dirs w) path then Next tt else Raise OSError,
     made w path).

(** [with open(path, "wb") as f: f.write(bytes)] *)
Definition write_bytes (path : str) (bytes : list byte) : M unit :=
  fun w =>
    match saves os (files w) (dirs w) path bytes with
    | Stored => (Next tt, written w path bytes)
    | Refused => (Raise OSError, w)
    | Torn n => (Raise OSError, written w path (take n bytes))
    end.

(** [w] once path resolution has looked after the directory [dir]: as it
    is when something is at [dir], else after [os.makedirs(dir)]. *)
Definition ensured (w : world) (dir : str) : world :=
  if present w dir then w else made w dir.

(** Path resolution gets through: something is at [dir], or
    [os.makedirs(dir)] makes it. *)
Definition resolvable (w : world) (dir : str) : bool :=
  present w dir || makes os (files w) (dirs w) dir.

(** [f"{v}"] *)
Definition format (v : json) : str :=
  match v with
  | JStr s => s
  | _ => str_object v
  end.

Definition session_request (session : Session) (m : method) (url : str)
    (hdrs : list (str * str)) (data : option str) (timeout : Z) : M reply :=
  fun w =>
    let req := {| req_method := m; req_url := url; req_headers := hdrs;
                  req_data := data; req_timeout := timeout;
                  req_proxies := session_proxies session |} in
    let rep := send (net_log w) req in
    (Next rep,
     {| files := files w; dirs := dirs w; stdout := stdout w;
        net_log := net_log w ++ [(req, rep)] |}).

(** Lines 53-57: the session and its proxies. *)
Definition open_session (self : VSCodeExtensionDownloader)
    (proxy : option str) : M Session :=
  if truthy_opt proxy
  then _print self (lit "Using proxy: " ++ default [] proxy) >>
       ret {| session_proxies := [(lit "http", default [] proxy);
                                  (lit "https", default [] proxy)] |}
  else ret {| session_proxies := [] |}.

(** Lines 36-51 and 59-74: the metadata request and its three ways to
    fail. *)
Definition query (self : VSCodeExtensionDownloader) (session : Session)
    (publisher extension_name : str) : M json :=
  let payload := json_dumps (query_document publisher extension_name) in
  _print self (lit "Querying Marketplace API...") >>
  let! posted := session_request session POST api_url headers (Some payload) 20 in
  let! response :=
    match posted with
    | RequestException e =>
        _print self (lit "Failed to query Marketplace API: " ++ e) >> return_
    | Response r => ret r
    end in
  (if negb (status_code response =? 200)%Z
   then _print self (lit "Failed to query Marketplace API") >> return_
   else ret tt) >>
  try_except (lift (response_json response)) value_error
    (_print self (lit "Failed to parse Marketplace API response") >> return_).

(** Lines 79-98: the descent into the document, inside its [try]. *)
Definition extract_version (self : VSCodeExtensionDownloader)
    (publisher extension_name : str) (extension_data : json) : M json :=
  try_except
    (let! r := lift (py_get extension_data (lit "results")) in
     let results := py_or r (JArr []) in
     (if negb (truthy results)
      then _print self (extension_not_found publisher extension_name) >> return_
      else ret tt) >>
     let! r0 := lift (py_item0 results) in
     let! e := lift (py_get r0 (lit "extensions")) in
     let exts := py_or e (JArr []) in
     (if negb (truthy exts)
      then _print self (extension_not_found publisher extension_name) >> return_
      else ret tt) >>
     let! e0 := lift (py_item0 exts) in
     let! v := lift (py_get e0 (lit "versions")) in
     let vers := py_or v (JArr []) in
     (if negb (truthy vers)
      then _print self (extension_not_found publisher extension_name) >> return_
      else ret tt) >>
     let! v0 := lift (py_item0 vers) in
     let! version := lift (py_get v0 (lit "version")) in
     (if negb (truthy version)
      then _print self (extension_not_found publisher extension_name) >> return_
      else ret tt) >>
     ret version)
    structural
    (_print self (extension_not_found publisher extension_name) >> return_).

(** Lines 76-98. *)
Definition select_version (self : VSCodeExtensionDownloader)
    (publisher extension_name : str) (specific_version : option str)
    (extension_data : json) : M json :=
  if truthy_opt specific_version
  then ret (JStr (default [] specific_version))
  else extract_version self publisher extension_name extension_data.

(** The directory of lines 100 and 104. *)
Definition target_dir (destination : option str) : str :=
  if truthy_opt destination then default [] destination
  else lit "extensions".

(** Lines 100-107: the directory is made when missing, the path joined. *)
Definition resolve_path (publisher extension_name : str)
    (destination : option str) (version : str) : M str :=
  let dir := target_dir destination in
  let! there := os_path_exists dir in
  (if negb there then os_makedirs dir else ret tt) >>
  ret (os_path_join dir (vsix_name publisher extension_name version)).

(** Lines 109-130: the cache test, the download and the write. *)
Definition fetch (self : VSCodeExtensionDownloader) (session : Session)
    (publisher extension_name version file_path : str)
    (no_cache : bool) : M unit :=
  let! cached := os_path_exists file_path in
  (if negb no_cache && cached
   then _print self (lit "File " ++ file_path ++ lit " already exists.") >>
        _print self (lit "Use --no-cache to force re-download.") >> return_
   else ret tt) >>
  let url := download_url publisher extension_name version in
  _print self (lit "Downloading version " ++ version ++ lit "...") >>
  let! got := session_request session GET url [] None 60 in
  let! download_response :=
    match got with
    | RequestException e =>
        _print self (lit "Failed to download asset: " ++ e) >> return_
    | Response r => ret r
    end in
  if (status_code download_response =? 200)%Z
  then write_bytes file_path (content download_response) >>
       _print self (times 42 50) >>
       _print self (lit "Successfully downloaded to: " ++ file_path) >>
       _print self (times 42 50)
  else _print self (lit "Failed to download "
                    ++ vsix_name publisher extension_name version).

Definition _download_vscode_extension (self : VSCodeExtensionDownloader)
    (publisher extension_name : str) (proxy specific_version
    destination : option str) (no_cache : bool) : M unit :=
  let! session := open_session self proxy in
  let! extension_data := query self session publisher extension_name in
  let! version :=
    select_version self publisher extension_name specific_version
      extension_data in
  let! file_path :=
    resolve_path publisher extension_name destination (format version) in
  fetch self session publisher extension_name (format version) file_path
    no_cache.

(** Lines 30-33: what [download] does with an identifier it accepts. *)
Definition start (self : VSCodeExtensionDownloader)
    (publisher extension_name : str) : M unit :=
  _print self (times 61 50) >>
  _print self (lit "Downloading " ++ publisher ++ [dot] ++ extension_name) >>
  _print self (times 61 50) >>
  invoke (_download_vscode_extension self publisher extension_name
            (proxy self) (version self) (destination self) (no_cache self)).

Definition download (self : VSCodeExtensionDownloader) : M unit :=
  let ext := strip (default [] (extension self)) in
  (if negb (contains dot ext)
   then _print self (invalid_identifier ext) >> return_
   else ret tt) >>
  match split1 dot ext with
  | [publisher; extension_name] =>
      (if match publisher with [] => true | _ => false end
          || match extension_name with [] => true | _ => false end
       then _print self (invalid_identifier ext) >> return_
       else ret tt) >>
      start self publisher extension_name
  | _ => raise ValueError
  end.

(** The body of the loop of lines 138-142. *)
Definition download_line (proxy version destination : option str)
    (no_cache verbose : bool) (extension : str) : M unit :=
  let extension := strip extension in
  if match extension with [] => false | _ => true end
  then
    let downloader :=
      {| extension := Some extension; proxy := proxy; version := version;
         destination := destination; no_cache := no_cache;
         print := verbose |} in
    invoke (download downloader)
  else ret tt.

Definition download_plugins_from_file (file_path : str)
    (proxy version destination : option str) (no_cache verbose : bool) : M unit :=
  let! there := os_path_exists file_path in
  (if negb there
   then py_print (lit "File not found: " ++ file_path) >> return_
   else ret tt) >>
  let! extensions := read_lines file_path in
  for_each extensions
    (download_line proxy version destination no_cache verbose).

Definition cli (extension file proxy version destination : option str)
    (no_cache no_print : bool) : M unit :=
  if truthy_opt file then
    invoke (download_plugins_from_file (default [] file) proxy version
              destination no_cache no_print)
  else if truthy_opt extension then
    let downloader :=
      {| extension := extension; proxy := proxy; version := version;
         destination := destination; no_cache := no_cache;
         print := no_print |} in
    invoke (download downloader)
  else
    py_print usage.

(** The command as [click] calls it. *)
Definition main (c : command_line) : M unit :=
  cli (given_extension c) (given_file c) (given_proxy c) (given_version c)
      (given_destination c) (given_no_cache c) (no_print_value c).


(** The two requests of a run. *)
Definition post_request (session : Session)
    (publisher extension_name : str) : request :=
  {| req_method := POST; req_url := api_url; req_headers := headers;
     req_data := Some (json_dumps (query_document publisher extension_name));
     req_timeout := 20; req_proxies := session_proxies session |}.

Definition get_request (session : Session)
    (publisher extension_name version : str) : request :=
  {| req_method := GET;
     req_url := download_url publisher extension_name version;
     req_headers := []; req_data := None; req_timeout := 60;
     req_proxies := session_proxies session |}.

Definition session_of (proxy : option str) : Session :=
  {| session_proxies :=
       if truthy_opt proxy
       then [(lit "http", default [] proxy); (lit "https", default [] proxy)]
       else [] |}.


(** ** Strings: the identifier *)

Lemma contains_In (c : N) (s : str) : contains c s = true <-> In c s.
Proof.
  unfold contains. rewrite existsb_exists. split.
  - intros [x [Hx Heq]]. apply N.eqb_eq in Heq. now subst.
  - intros H. exists c. split; [assumption | apply N.eqb_refl].
Qed.

Lemma break_at_found (sep : N) (s a b : str) :
  break_at sep s = (a, Some b) <-> s = a ++ sep :: b /\ ~ In sep a.
Proof.
  revert a. induction s as [|c r IH]; intros a; simpl.
  - split; [discriminate |]. intros [H _]. now destruct a.
  - destruct (N.eqb_spec c sep) as [->|Hne].
    + split.
      * intros [= <- <-]. split; [reflexivity | intros []].
      * intros [H Hnot]. destruct a as [|x a]; simpl in H.
        -- now inversion H.
        -- inversion H; subst. exfalso. apply Hnot. now left.
    + destruct (break_at sep r) as [a' b'] eqn:E. split.
      * intros [= <- ->]. destruct (proj1 (IH a') eq_refl) as [-> Hnot].
        split; [reflexivity |]. intros [H|H]; [now apply Hne | now apply Hnot].
      * intros [H Hnot]. destruct a as [|x a]; simpl in H.
        -- inversion H. congruence.
        -- inversion H; subst x.
           assert (Hr : break_at sep r = (a, Some b)).
           { rewrite E. apply IH. split; [assumption |].
             intros Hin. apply Hnot. now right. }
           rewrite E in Hr. now inversion Hr.
Qed.

Lemma break_at_none (sep : N) (s a : str) :
  break_at sep s = (a, None) -> ~ In sep s.
Proof.
  revert a. induction s as [|c r IH]; intros a; simpl.
  - intros _ [].
  - destruct (N.eqb_spec c sep) as [->|Hne]; [discriminate |].
    destruct (break_at sep r) as [a' b'] eqn:E.
    intros [= <- ->]. intros [H|H]; [now apply Hne | now apply (IH a')].
Qed.

Lemma lstrip_head (s : str) (c : N) (r : str) :
  lstrip s = c :: r -> isspace c = false.
Proof.
  induction s as [|x s IH]; cbn [lstrip]; [discriminate |].
  destruct (isspace x) eqn:E; [exact IH |]. now intros [= <- _].
Qed.

Lemma lstrip_fixed (s : str) :
  match s with [] => True | c :: _ => isspace c = false end ->
  lstrip s = s.
Proof. destruct s as [|c r]; [reflexivity |]. cbn [lstrip]. now intros ->. Qed.

Lemma lstrip_idempotent (s : str) : lstrip (lstrip s) = lstrip s.
Proof.
  apply lstrip_fixed. destruct (lstrip s) as [|c r] eqn:E; [exact I |].
  exact (lstrip_head _ _ _ E).
Qed.

Lemma lstrip_keeps_last (y : str) (c : N) :
  isspace c = false -> exists x, lstrip (y ++ [c]) = x ++ [c].
Proof.
  intros Hc. induction y as [|a y IH]; cbn [app lstrip].
  - rewrite Hc. now exists [].
  - destruct (isspace a); [exact IH |]. now exists (a :: y).
Qed.

Lemma rstrip_keeps_head (c : N) (r : str) :
  isspace c = false -> exists r', rstrip (c :: r) = c :: r'.
Proof.
  intros Hc. unfold rstrip. cbn [rev].
  destruct (lstrip_keeps_last (rev r) c Hc) as [x ->].
  rewrite rev_app_distr. cbn. eauto.
Qed.

Lemma strip_idempotent (s : str) : strip (strip s) = strip s.
Proof.
  unfold strip.
  assert (H : lstrip (rstrip (lstrip s)) = rstrip (lstrip s)).
  { apply lstrip_fixed. destruct (lstrip s) as [|c r] eqn:E; [exact I |].
    destruct (rstrip_keeps_head c r (lstrip_head _ _ _ E)) as [r' ->].
    exact (lstrip_head _ _ _ E). }
  rewrite H. unfold rstrip at 1 2. now rewrite rev_involutive, lstrip_idempotent.
Qed.

Lemma first_dot_break (ext publisher name : str) :
  first_dot ext publisher name <-> break_at dot ext = (publisher, Some name).
Proof. unfold first_dot. symmetry. apply break_at_found. Qed.

Lemma first_dot_In (ext publisher name : str) :
  first_dot ext publisher name -> In dot ext.
Proof. intros [-> _]. apply in_or_app. right. now left. Qed.

Lemma first_dot_well_formed (ext publisher name : str) :
  first_dot ext publisher name -> publisher <> [] -> name <> [] ->
  ~ malformed ext.
Proof.
  intros Hfd Hp Hn [Hno | (p' & n' & Hfd' & Hem)].
  - apply Hno. eapply first_dot_In, Hfd.
  - apply first_dot_break in Hfd, Hfd'. rewrite Hfd' in Hfd.
    injection Hfd as -> ->. now destruct Hem.
Qed.

(** ** Worlds *)

Lemma _print_say (self : VSCodeExtensionDownloader) (msg : str) (w : world) :
  _print self msg w = (Next tt, say self [msg] w).
Proof. unfold _print, say. now destruct (print self). Qed.

Lemma report_run {A} self msg w :
  (_print self msg >> @return_ A) w = (Return, say self [msg] w).
Proof. unfold bind. now rewrite _print_say. Qed.

Lemma printed_printed (w : world) (a b : list str) :
  printed (printed w a) b = printed w (a ++ b).
Proof. unfold printed; simpl. now rewrite app_assoc. Qed.

Lemma say_say (self : VSCodeExtensionDownloader) (a b : list str) (w : world) :
  say self b (say self a w) = say self (a ++ b) w.
Proof. unfold say. destruct (print self); [apply printed_printed | reflexivity]. Qed.

Lemma net_log_say self msgs w : net_log (say self msgs w) = net_log w.
Proof. unfold say. now destruct (print self). Qed.

Lemma files_say self msgs w : files (say self msgs w) = files w.
Proof. unfold say. now destruct (print self). Qed.

Lemma dirs_say self msgs w : dirs (say self msgs w) = dirs w.
Proof. unfold say. now destruct (print self). Qed.

Lemma present_say self msgs w path : present (say self msgs w) path = present w path.
Proof. unfold present. now rewrite files_say, dirs_say. Qed.

Lemma stdout_say self msgs w :
  stdout (say self msgs w) = stdout w ++ (if print self then msgs else []).
Proof. unfold say. destruct (print self); simpl; [reflexivity | now rewrite app_nil_r]. Qed.


(** ** The stages of a run, one equation each *)

Lemma open_session_run self proxy w :
  open_session self proxy w =
  (Next (session_of proxy),
   if truthy_opt proxy
   then say self [lit "Using proxy: " ++ default [] proxy] w
   else w).
Proof.
  unfold open_session, session_of, bind, ret.
  destruct (truthy_opt proxy); [| reflexivity].
  now rewrite _print_say.
Qed.

Lemma query_run self session publisher extension_name w :
  query self session publisher extension_name w =
  let req := post_request session publisher extension_name in
  let rep := send (net_log w) req in
  let w1 := logged (say self [lit "Querying Marketplace API..."] w) req rep in
  match rep with
  | RequestException e =>
      (Return, say self [lit "Failed to query Marketplace API: " ++ e] w1)
  | Response r =>
      if (status_code r =? 200)%Z then
        match response_json r with
        | Ok d => (Next d, w1)
        | Exc e =>
            if value_error e
            then (Return,
                  say self [lit "Failed to parse Marketplace API response"] w1)
            else (Raise e, w1)
        end
      else (Return, say self [lit "Failed to query Marketplace API"] w1)
  end.
Proof.
  unfold query, bind. rewrite _print_say.
  unfold session_request, logged. rewrite net_log_say.
  fold (post_request session publisher extension_name).
  cbv zeta.
  destruct (send (net_log w) (post_request session publisher extension_name))
    as [r|e]; cbn [ret return_].
  - destruct (status_code r =? 200)%Z; cbn [negb ret return_].
    + unfold try_except.
      destruct (response_json r) as [d|e]; cbn [lift ret raise]; [reflexivity |].
      destruct (value_error e); [| reflexivity].
      now rewrite _print_say.
    + now rewrite _print_say.
  - now rewrite _print_say.
Qed.

Lemma resolve_path_run publisher extension_name destination version w :
  resolve_path publisher extension_name destination version w =
  (if resolvable w (target_dir destination)
   then Next (os_path_join (target_dir destination)
                (vsix_name publisher extension_name version))
   else Raise OSError,
   ensured w (target_dir destination)).
Proof.
  unfold resolve_path, bind, os_path_exists, ensured, resolvable, os_makedirs,
    ret.
  cbv zeta. fold (present w (target_dir destination)).
  destruct (present w (target_dir destination)); cbn [negb orb]; [reflexivity |].
  now destruct (makes os (files w) (dirs w) (target_dir destination)).
Qed.

(** Lines 100-130 from a world [w]. *)
Lemma store_run self session publisher extension_name destination version
    no_cache w :
  (let! file_path :=
     resolve_path publisher extension_name destination version in
   fetch self session publisher extension_name version file_path no_cache) w =
  if resolvable w (target_dir destination)
  then fetch self session publisher extension_name version
         (os_path_join (target_dir destination)
            (vsix_name publisher extension_name version))
         no_cache (ensured w (target_dir destination))
  else (Raise OSError, ensured w (target_dir destination)).
Proof.
  unfold bind. rewrite resolve_path_run.
  now destruct (resolvable w (target_dir destination)).
Qed.

Lemma fetch_run self session publisher extension_name version file_path no_cache w :
  fetch self session publisher extension_name version file_path no_cache w =
  if negb no_cache && present w file_path then
    (Return,
     say self [lit "File " ++ file_path ++ lit " already exists.";
               lit "Use --no-cache to force re-download."] w)
  else
    let req := get_request session publisher extension_name version in
    let rep := send (net_log w) req in
    let w1 :=
      logged (say self [lit "Downloading version " ++ version ++ lit "..."] w)
        req rep in
    match rep with
    | RequestException e =>
        (Return, say self [lit "Failed to download asset: " ++ e] w1)
    | Response r =>
        if (status_code r =? 200)%Z then
          match saves os (files w) (dirs w) file_path (content r) with
          | Stored =>
              (Next tt,
               say self [times 42 50;
                         lit "Successfully downloaded to: " ++ file_path;
                         times 42 50]
                 (written w1 file_path (content r)))
          | Refused => (Raise OSError, w1)
          | Torn n => (Raise OSError, written w1 file_path (take n (content r)))
          end
        else
          (Next tt,
           say self [lit "Failed to download "
                     ++ vsix_name publisher extension_name version] w1)
    end.
Proof.
  unfold fetch, bind, os_path_exists. fold (present w file_path).
  destruct (negb no_cache && present w file_path).
  - rewrite !_print_say. cbn [return_]. now rewrite say_say.
  - cbn [ret]. rewrite _print_say.
    unfold session_request, logged. rewrite net_log_say.
    fold (get_request session publisher extension_name version).
    cbv zeta.
    destruct (send (net_log w)
                (get_request session publisher extension_name version))
      as [r|e]; cbn [ret return_].
    + destruct (status_code r =? 200)%Z.
      * unfold write_bytes. cbn [files dirs]. rewrite files_say, dirs_say.
        destruct (saves os (files w) (dirs w) file_path (content r));
          [| reflexivity | reflexivity].
        rewrite !_print_say, !say_say. reflexivity.
      * now rewrite _print_say.
    + now rewrite _print_say.
Qed.


(** ** The descent *)

(** One level of the source's descent, [o.get(k) or []], the emptiness
    test and [[0]], against one level of the chain of lookups. *)
Lemma level_cases (k : str) (o : json) :
  match py_get o k with
  | Exc e => e = AttributeError /\ member k o = None
  | Ok r =>
      let xs := py_or r (JArr []) in
      if truthy xs then
        member k o = Some xs /\
        match py_item0 xs with
        | Ok x =>
            is_object xs = false /\
            (first xs = Some x
             \/ (first xs = None /\ forall k', py_get x k' = Exc AttributeError))
        | Exc e =>
            first xs = None /\
            ((e = TypeError /\ is_object xs = false)
             \/ (e = KeyError /\ is_object xs = true))
        end
      else member k o = None
  end.
Proof.
  destruct o; cbn; try (split; reflexivity).
  destruct (assoc k m) as [r|]; cbn; [| reflexivity].
  unfold py_or. destruct (truthy r) eqn:Ht; cbn; [| reflexivity].
  rewrite Ht. split; [reflexivity |].
  destruct r as [| b | z | f | s | l | m']; cbn in *; try discriminate;
    try (split; [reflexivity | left; split; reflexivity]).
  - destruct s; [discriminate |]. split; [reflexivity |]. right. split; reflexivity.
  - destruct l; [discriminate |]. split; [reflexivity | now left].
  - destruct m'; [discriminate |]. split; [reflexivity | right; split; reflexivity].
Qed.

(** The last level: [o.get("version")] and its emptiness test. *)
Lemma leaf_cases (k : str) (o : json) :
  match py_get o k with
  | Exc e => e = AttributeError /\ member k o = None
  | Ok v => if truthy v then member k o = Some v else member k o = None
  end.
Proof.
  destruct o; cbn; try (split; reflexivity).
  destruct (assoc k m) as [r|]; cbn; [| reflexivity].
  now destruct (truthy r).
Qed.

Lemma level_run {A} self msg (k : str) (o : json) (rest : json -> M A) w :
  (let! r := lift (py_get o k) in
   (if negb (truthy (py_or r (JArr [])))
    then _print self msg >> return_ else ret tt) >>
   let! x := lift (py_item0 (py_or r (JArr []))) in rest x) w =
  match py_get o k with
  | Exc e => (Raise e, w)
  | Ok r =>
      if truthy (py_or r (JArr [])) then
        match py_item0 (py_or r (JArr [])) with
        | Ok x => rest x w
        | Exc e => (Raise e, w)
        end
      else (Return, say self [msg] w)
  end.
Proof.
  unfold bind. destruct (py_get o k) as [r|e]; cbn [lift ret raise]; [| reflexivity].
  destruct (truthy (py_or r (JArr []))); cbn [negb ret].
  - now destruct (py_item0 (py_or r (JArr []))).
  - now rewrite _print_say.
Qed.

Lemma leaf_run self msg (k : str) (o : json) w :
  (let! version := lift (py_get o k) in
   (if negb (truthy version)
    then _print self msg >> return_ else ret tt) >>
   ret version) w =
  match py_get o k with
  | Exc e => (Raise e, w)
  | Ok v => if truthy v then (Next v, w) else (Return, say self [msg] w)
  end.
Proof.
  unfold bind. destruct (py_get o k) as [r|e]; cbn [lift ret raise]; [| reflexivity].
  destruct (truthy r); cbn [negb ret]; [reflexivity |].
  now rewrite _print_say.
Qed.

Ltac level :=
  rewrite level_run;
  match goal with
  | |- context [py_get ?o ?k] =>
      let H := fresh "H" in
      pose proof (level_cases k o) as H; cbv zeta in H;
      destruct (py_get o k) as [?r|?e];
      [ match goal with
        | |- context [truthy (py_or ?r (JArr []))] =>
          destruct (truthy (py_or r (JArr [])));
          [ let Hm := fresh "Hm" in
            destruct H as [Hm H]; rewrite Hm; cbn [mbind option_bind];
            destruct (py_item0 (py_or r (JArr []))) as [?x|?e];
            [ let Ho := fresh "Ho" in
              destruct H as [Ho [H | [H ?Hs]]]; rewrite H, Ho;
              cbn [mbind option_bind orb]
            | let Ho := fresh "Ho" in
              destruct H as [H [[-> Ho] | [-> Ho]]]; rewrite H, Ho;
              cbn [mbind option_bind orb] ]
          | rewrite H; cbn [mbind option_bind] ]
        end
      | destruct H as [-> H]; rewrite H; cbn [mbind option_bind] ]
  end.

Lemma member_truthy (k : str) (o : json) (v : json) :
  member k o = Some v -> truthy v = true.
Proof.
  destruct o; cbn; try discriminate.
  destruct (assoc k m) as [x|]; [| discriminate].
  destruct (truthy x) eqn:E; [| discriminate]. now intros [= <-].
Qed.

Lemma latest_version_truthy (d v : json) :
  latest_version d = Some v -> truthy v = true.
Proof.
  unfold latest_version.
  destruct (member (lit "results") d) as [r|]; cbn; [| discriminate].
  destruct (first r) as [r0|]; cbn; [| discriminate].
  destruct (member (lit "extensions") r0) as [e|]; cbn; [| discriminate].
  destruct (first e) as [e0|]; cbn; [| discriminate].
  destruct (member (lit "versions") e0) as [vs|]; cbn; [| discriminate].
  destruct (first vs) as [v0|]; cbn; [| discriminate].
  apply member_truthy.
Qed.

(** The descent of the source against the chain of lookups: the same
    version where the chain finds one; where it finds none, "not found",
    unless a dict stands where the descent subscripts with [0]. *)
Lemma extract_version_run self publisher extension_name d w :
  extract_version self publisher extension_name d w =
  match latest_version d with
  | Some v => (Next v, w)
  | None =>
      if object_for_list d then (Raise KeyError, w)
      else (Return, say self [extension_not_found publisher extension_name] w)
  end.
Proof.
  unfold extract_version, try_except, latest_version, object_for_list.
  repeat level.
  all: rewrite ?leaf_run.
  all: repeat match goal with
       | Hs : forall k', py_get ?x k' = _ |- _ => rewrite !Hs; clear Hs
       end.
  all: try match goal with
       | |- context [py_get ?o ?k] =>
           let H := fresh "H" in
           pose proof (leaf_cases k o) as H;
           destruct (py_get o k) as [?v|?e];
           [ destruct (truthy v) eqn:?; rewrite H
           | destruct H as [-> H]; rewrite H ]
       end.
  all: cbn [bind lift raise structural]; rewrite ?report_run.
  all: try reflexivity.
  all: repeat match goal with
       | |- context [member ?k ?o] => destruct (member k o) as [?|]
       | |- context [is_object ?o] => destruct (is_object o)
       | |- context [first ?o] => destruct (first o) as [?|]
       end; try reflexivity.
Qed.

(** ** A whole run of the pipeline *)

Lemma select_version_cases self publisher extension_name specific_version d w :
  select_version self publisher extension_name specific_version d w =
  match resolved specific_version d with
  | Some v => (Next v, w)
  | None =>
      if object_for_list d then (Raise KeyError, w)
      else (Return, say self [extension_not_found publisher extension_name] w)
  end.
Proof.
  unfold resolved, select_version.
  destruct (truthy_opt specific_version); [reflexivity |].
  apply extract_version_run.
Qed.

Lemma pipeline_run self publisher extension_name proxy specific_version
    destination no_cache w :
  let session := session_of proxy in
  let post := post_request session publisher extension_name in
  let rep := send (net_log w) post in
  let w1 := logged (say self (opening proxy) w) post rep in
  let r := _download_vscode_extension self publisher extension_name proxy
             specific_version destination no_cache w in
  match rep with
  | RequestException e =>
      r = (Return, say self [lit "Failed to query Marketplace API: " ++ e] w1)
  | Response resp =>
      if (status_code resp =? 200)%Z then
        match response_json resp with
        | Exc e =>
            r = if value_error e
                then (Return,
                      say self [lit "Failed to parse Marketplace API response"]
                        w1)
                else (Raise e, w1)
        | Ok d =>
            match resolved specific_version d with
            | Some v =>
                r = (let! file_path :=
                       resolve_path publisher extension_name destination
                         (format v) in
                     fetch self session publisher extension_name (format v)
                       file_path no_cache) w1
            | None =>
                r = if object_for_list d then (Raise KeyError, w1)
                    else (Return,
                          say self
                            [extension_not_found publisher extension_name] w1)
            end
        end
      else r = (Return, say self [lit "Failed to query Marketplace API"] w1)
  end.
Proof.
  cbv zeta. unfold _download_vscode_extension, bind.
  rewrite open_session_run, query_run. cbv zeta.
  assert (Hlog : net_log (if truthy_opt proxy
                          then say self [lit "Using proxy: " ++ default [] proxy] w
                          else w) = net_log w).
  { destruct (truthy_opt proxy); [apply net_log_say | reflexivity]. }
  rewrite Hlog.
  assert (Hw : say self [lit "Querying Marketplace API..."]
                 (if truthy_opt proxy
                  then say self [lit "Using proxy: " ++ default [] proxy] w
                  else w) = say self (opening proxy) w).
  { unfold opening. destruct (truthy_opt proxy); [apply say_say | reflexivity]. }
  rewrite Hw.
  destruct (send (net_log w)
              (post_request (session_of proxy) publisher extension_name))
    as [resp|e]; [| reflexivity].
  destruct (status_code resp =? 200)%Z; [| reflexivity].
  destruct (response_json resp) as [d|e];
    [| now destruct (value_error e)].
  set (w1 := logged _ _ _).
  rewrite select_version_cases.
  destruct (resolved specific_version d) as [v|].
  - reflexivity.
  - now destruct (object_for_list d).
Qed.


(** X20. The not-found outcome of a whole run: a parseable answer in which the
    chain of lookups finds no version, and no dict stands where the descent
    subscripts, is reported as "Extension not found"; the run returns with
    the POST as its only exchange and the file store untouched. *)
Lemma not_found_run self publisher extension_name proxy specific_version
    destination no_cache w resp d :
  let post := post_request (session_of proxy) publisher extension_name in
  truthy_opt specific_version = false ->
  send (net_log w) post = Response resp ->
  status_code resp = 200%Z ->
  response_json resp = Ok d ->
  latest_version d = None ->
  object_for_list d = false ->
  let r := run (_download_vscode_extension self publisher extension_name
                  proxy specific_version destination no_cache) w in
  r = (Returned,
       say self [extension_not_found publisher extension_name]
         (logged (say self (opening proxy) w) post (Response resp)))
  /\ net_log (snd r) = net_log w ++ [(post, Response resp)]
  /\ files (snd r) = files w /\ dirs (snd r) = dirs w.
Proof.
  intros post Hsv Hsend Hs Hd Hl Ho r. subst r. unfold run.
  pose proof (pipeline_run self publisher extension_name proxy
                specific_version destination no_cache w) as H.
  cbv zeta in H. fold post in H. rewrite Hsend, Hs, Hd in H.
  unfold resolved in H. rewrite Hsv, Hl, Ho in H. cbn in H. rewrite H.
  cbn [snd]. rewrite net_log_say, files_say, dirs_say. cbn.
  rewrite net_log_say, files_say, dirs_say. now repeat split.
Qed.

(** ** Relations kept by every step *)

Section Steps.

Variable R : world -> world -> Prop.
Hypothesis R_refl : forall w, R w w.
Hypothesis R_trans : forall a b c, R a b -> R b c -> R a c.

Lemma steps_ret {A} (a : A) : steps R (ret a).
Proof. intros w. apply R_refl. Qed.

Lemma steps_return {A} : steps R (@return_ A).
Proof. intros w. apply R_refl. Qed.

Lemma steps_raise {A} (e : exn) : steps R (@raise A e).
Proof. intros w. apply R_refl. Qed.

Lemma steps_lift {A} (r : res A) : steps R (lift r).
Proof. destruct r; [apply steps_ret | apply steps_raise]. Qed.

Lemma steps_bind {A B} (c : M A) (k : A -> M B) :
  steps R c -> (forall a, steps R (k a)) -> steps R (bind c k).
Proof.
  intros Hc Hk w. unfold bind. specialize (Hc w).
  destruct (c w) as [[a| |e] w1]; cbn [snd] in *; try assumption.
  eapply R_trans; [exact Hc | apply Hk].
Qed.

Lemma steps_try_except {A} (c h : M A) (handles : exn -> bool) :
  steps R c -> steps R h -> steps R (try_except c handles h).
Proof.
  intros Hc Hh w. unfold try_except. specialize (Hc w).
  destruct (c w) as [[a| |e] w1]; cbn [snd] in *; try assumption.
  destruct (handles e); [| assumption].
  eapply R_trans; [exact Hc | apply Hh].
Qed.

Lemma steps_invoke (c : M unit) : steps R c -> steps R (invoke c).
Proof.
  intros Hc w. unfold invoke. specialize (Hc w).
  now destruct (c w) as [[a| |e] w1].
Qed.

Lemma steps_for_each {A} (l : list A) (body : A -> M unit) :
  (forall x, steps R (body x)) -> steps R (for_each l body).
Proof.
  intros Hb. induction l as [|x l IH]; cbn [for_each].
  - apply steps_ret.
  - apply steps_bind; [apply Hb | intros _; exact IH].
Qed.

End Steps.


(** ** What a run prints *)

Lemma emits_refl P w : emits P w w.
Proof. exists []. split; [now rewrite app_nil_r | constructor]. Qed.

Lemma emits_trans P a b c : emits P a b -> emits P b c -> emits P a c.
Proof.
  intros [m1 [H1 F1]] [m2 [H2 F2]]. exists (m1 ++ m2). split.
  - now rewrite H2, H1, app_assoc.
  - apply Forall_app. now split.
Qed.

Lemma emits_same P w w' : stdout w' = stdout w -> emits P w w'.
Proof. intros H. exists []. split; [now rewrite app_nil_r | constructor]. Qed.

Lemma emits_py_print P msg : P msg -> steps (emits P) (py_print msg).
Proof. intros H w. exists [msg]. split; [reflexivity | now constructor]. Qed.

Lemma emits_print P self msg : P msg -> steps (emits P) (_print self msg).
Proof.
  intros H. unfold _print. destruct (print self).
  - now apply emits_py_print.
  - apply steps_ret, emits_refl.
Qed.

Lemma emits_session_request P session m url hdrs data timeout :
  steps (emits P) (session_request session m url hdrs data timeout).
Proof. intros w. now apply emits_same. Qed.

Lemma emits_exists P path : steps (emits P) (os_path_exists path).
Proof. intros w. now apply emits_same. Qed.

Lemma emits_makedirs P path : steps (emits P) (os_makedirs path).
Proof. intros w. now apply emits_same. Qed.

Lemma emits_write P path bytes : steps (emits P) (write_bytes path bytes).
Proof.
  intros w. unfold write_bytes.
  destruct (saves os (files w) (dirs w) path bytes); now apply emits_same.
Qed.

Lemma emits_read_lines P path : steps (emits P) (read_lines path).
Proof.
  intros w. unfold read_lines. destruct (files w !! path) as [b|]; cbn [snd].
  - destruct (utf8_decode (map to_N b)); apply emits_refl.
  - apply emits_refl.
Qed.

Ltac emit :=
  repeat
    match goal with
    | |- steps _ (bind _ _) =>
        apply (steps_bind _ (@emits_trans _)); [| intros ?]
    | |- steps _ (ret _) => apply (steps_ret _ (@emits_refl _))
    | |- steps _ return_ => apply (steps_return _ (@emits_refl _))
    | |- steps _ (raise _) => apply (steps_raise _ (@emits_refl _))
    | |- steps _ (lift _) => apply (steps_lift _ (@emits_refl _))
    | |- steps _ (try_except _ _ _) =>
        apply (steps_try_except _ (@emits_trans _))
    | |- steps _ (invoke _) => apply steps_invoke
    | |- steps _ (for_each _ _) =>
        apply (steps_for_each _ (@emits_refl _) (@emits_trans _)); intros ?
    | |- steps _ (_print _ _) => apply emits_print; reflexivity
    | |- steps _ (py_print _) => apply emits_py_print; reflexivity
    | |- steps _ (session_request _ _ _ _ _ _) => apply emits_session_request
    | |- steps _ (os_path_exists _) => apply emits_exists
    | |- steps _ (os_makedirs _) => apply emits_makedirs
    | |- steps _ (write_bytes _ _) => apply emits_write
    | |- steps _ (read_lines _) => apply emits_read_lines
    | |- steps _ (if ?b then _ else _) => destruct b
    | |- steps _ (match ?x with _ => _ end) => destruct x
    end.

Lemma download_vscode_extension_plain self publisher extension_name proxy
    specific_version destination no_cache :
  steps (emits plain)
    (_download_vscode_extension self publisher extension_name proxy
       specific_version destination no_cache).
Proof.
  unfold _download_vscode_extension, open_session, query, select_version,
    extract_version, resolve_path, fetch.
  cbv zeta. emit.
Qed.

Lemma download_plain self : steps (emits plain) (download self).
Proof.
  unfold download, start. cbv zeta. emit.
  apply download_vscode_extension_plain.
Qed.

Lemma download_plugins_from_file_plain file_path proxy version destination
    no_cache verbose :
  steps (emits plain)
    (download_plugins_from_file file_path proxy version destination
       no_cache verbose).
Proof.
  unfold download_plugins_from_file, download_line. cbv zeta. emit.
  apply download_plain.
Qed.


(** ** The exchanges and the files of a run *)

Lemma net_log_ensured w dir : net_log (ensured w dir) = net_log w.
Proof. unfold ensured. now destruct (present w dir). Qed.

Lemma files_ensured w dir : files (ensured w dir) = files w.
Proof. unfold ensured. now destruct (present w dir). Qed.

Lemma stdout_ensured w dir : stdout (ensured w dir) = stdout w.
Proof. unfold ensured. now destruct (present w dir). Qed.

(** The directory is looked after the same way in two worlds with the
    same store. *)
Lemma dirs_ensured_store w w' dir :
  files w' = files w -> dirs w' = dirs w ->
  dirs (ensured w' dir) = dirs (ensured w dir).
Proof.
  intros Hf Hd. unfold ensured, present, made. rewrite Hf, Hd.
  now destruct (bool_decide (is_Some (files w !! dir))
                || bool_decide (dir ∈ dirs w)).
Qed.

Lemma present_store w w' path :
  files w' = files w -> dirs w' = dirs w -> present w' path = present w path.
Proof. intros Hf Hd. unfold present. now rewrite Hf, Hd. Qed.

Lemma resolvable_store w w' dir :
  files w' = files w -> dirs w' = dirs w ->
  resolvable w' dir = resolvable w dir.
Proof. intros Hf Hd. unfold resolvable, present. now rewrite Hf, Hd. Qed.

(** After path resolution got through, something is at the directory. *)
Lemma present_ensured w dir :
  resolvable w dir = true -> present (ensured w dir) dir = true.
Proof.
  unfold resolvable, ensured. destruct (present w dir) eqn:E; [easy |].
  cbn [orb]. intros Hm. unfold present, made. cbn [files dirs]. rewrite Hm.
  rewrite (bool_decide_eq_true_2 (dir ∈ _)).
  - apply orb_true_r.
  - apply elem_of_union. left. apply elem_of_union. left.
    now apply elem_of_singleton.
Qed.

Lemma pipeline_exchanges self publisher extension_name proxy specific_version
    destination no_cache w :
  let session := session_of proxy in
  let post := post_request session publisher extension_name in
  let rep := send (net_log w) post in
  let dir := target_dir destination in
  let r := _download_vscode_extension self publisher extension_name proxy
             specific_version destination no_cache w in
  (net_log (snd r) = net_log w ++ [(post, rep)] /\ files (snd r) = files w
   /\ forall resp d v,
        rep = Response resp -> status_code resp = 200%Z ->
        response_json resp = Ok d -> resolved specific_version d = Some v ->
        resolvable w dir = false
        \/ (no_cache = false
            /\ present (ensured w dir)
                 (os_path_join dir
                    (vsix_name publisher extension_name (format v))) = true))
  \/ exists resp d v rep',
       rep = Response resp /\ status_code resp = 200%Z
       /\ response_json resp = Ok d
       /\ resolved specific_version d = Some v
       /\ let get := get_request session publisher extension_name (format v) in
          let file_path :=
            os_path_join dir (vsix_name publisher extension_name (format v)) in
          resolvable w dir = true
          /\ (no_cache = true \/ present (ensured w dir) file_path = false)
          /\ net_log (snd r) = net_log w ++ [(post, rep); (get, rep')]
          /\ match rep' with
             | RequestException _ => fst r = Return /\ files (snd r) = files w
             | Response got =>
                 if (status_code got =? 200)%Z
                 then
                   match saves os (files w) (dirs (ensured w dir)) file_path
                           (content got) with
                   | Stored =>
                       fst r = Next tt
                       /\ files (snd r) = <[file_path := content got]> (files w)
                   | Refused =>
                       fst r = Raise OSError /\ files (snd r) = files w
                   | Torn n =>
                       fst r = Raise OSError
                       /\ files (snd r)
                          = <[file_path := take n (content got)]> (files w)
                   end
                 else fst r = Next tt /\ files (snd r) = files w
                      /\ exists earlier,
                           stdout (snd r) = stdout w ++
                             if print self
                             then earlier ++
                                    [lit "Failed to download "
                                     ++ vsix_name publisher extension_name
                                          (format v)]
                             else []
             end.
Proof.
  cbv zeta.
  pose proof (pipeline_run self publisher extension_name proxy
                specific_version destination no_cache w) as H.
  cbv zeta in H.
  set (post := post_request (session_of proxy) publisher extension_name) in *.
  set (rep := send (net_log w) post) in *.
  set (dir := target_dir destination) in *.
  set (r := _download_vscode_extension _ _ _ _ _ _ _ w) in *.
  destruct rep as [resp|e] eqn:Erep.
  2:{ left. rewrite H. cbn [snd]. rewrite net_log_say, files_say. cbn.
      rewrite net_log_say, files_say. repeat split. discriminate. }
  destruct (status_code resp =? 200)%Z eqn:Es.
  2:{ left. rewrite H. cbn [snd]. rewrite net_log_say, files_say. cbn.
      rewrite net_log_say, files_say. repeat split.
      intros resp' d v [= <-] Hs. apply Z.eqb_neq in Es. contradiction. }
  destruct (response_json resp) as [d|e] eqn:Ed.
  2:{ left. rewrite H. destruct (value_error e); cbn [snd].
      - rewrite net_log_say, files_say. cbn. rewrite net_log_say, files_say.
        repeat split. intros resp' d v [= <-] _. congruence.
      - cbn. rewrite net_log_say, files_say.
        repeat split. intros resp' d v [= <-] _. congruence. }
  destruct (resolved specific_version d) as [v|] eqn:Ev.
  2:{ left. rewrite H. destruct (object_for_list d); cbn [snd].
      - cbn. rewrite net_log_say, files_say.
        repeat split. intros resp' d' v [= <-] _. congruence.
      - rewrite net_log_say, files_say. cbn. rewrite net_log_say, files_say.
        repeat split. intros resp' d' v [= <-] _. congruence. }
  set (w1 := logged (say self (opening proxy) w) post (Response resp)) in *.
  assert (Hf1 : files w1 = files w) by (cbn; apply files_say).
  assert (Hd1 : dirs w1 = dirs w) by (cbn; apply dirs_say).
  assert (Hl1 : net_log w1 = net_log w ++ [(post, Response resp)])
    by (cbn; now rewrite net_log_say).
  rewrite store_run in H. fold dir in H.
  rewrite (resolvable_store w w1 dir Hf1 Hd1) in H.
  set (file_path := os_path_join dir
                      (vsix_name publisher extension_name (format v))) in *.
  assert (Hp : present (ensured w1 dir) file_path
               = present (ensured w dir) file_path).
  { unfold present. now rewrite !files_ensured, Hf1,
      (dirs_ensured_store w w1 dir Hf1 Hd1). }
  destruct (resolvable w dir) eqn:Er.
  2:{ left. rewrite H. cbn [snd].
      rewrite net_log_ensured, files_ensured, Hl1, Hf1. repeat split.
      intros resp' d' v' _ _ _ _. now left. }
  rewrite fetch_run in H. cbv zeta in H. rewrite Hp in H.
  rewrite net_log_ensured, files_ensured,
    (dirs_ensured_store w w1 dir Hf1 Hd1), Hf1, Hl1 in H.
  destruct (negb no_cache && present (ensured w dir) file_path) eqn:Ec.
  { left. rewrite H. cbn [snd]. rewrite net_log_say, files_say,
      net_log_ensured, files_ensured, Hl1, Hf1. repeat split.
    intros resp' d' v' [= <-] _ Hd' Hv'. right.
    rewrite Ed in Hd'. injection Hd' as <-. rewrite Ev in Hv'.
    injection Hv' as <-. apply andb_true_iff in Ec. destruct Ec as [Hn Hc].
    split; [now destruct no_cache | exact Hc]. }
  right. exists resp, d, v.
  set (get := get_request (session_of proxy) publisher extension_name (format v)) in *.
  exists (send (net_log w ++ [(post, Response resp)]) get).
  apply Z.eqb_eq in Es.
  repeat (split; [reflexivity || assumption |]).
  split.
  { destruct no_cache; [now left | right].
    cbn [negb andb] in Ec. exact Ec. }
  assert (Hsay : forall msgs w0, files (say self msgs w0) = files w0)
    by (intros; apply files_say).
  destruct (send (net_log w ++ [(post, Response resp)]) get) as [got|e'].
  - destruct (status_code got =? 200)%Z.
    + unfold file_path in *.
      destruct (saves os (files w) (dirs (ensured w dir)) _ (content got));
        rewrite H; cbn [fst snd].
      * rewrite net_log_say, files_say. cbn.
        rewrite net_log_say, files_say, net_log_ensured, files_ensured, Hl1, Hf1.
        rewrite <- app_assoc. now repeat split.
      * cbn. rewrite net_log_say, files_say, net_log_ensured, files_ensured,
          Hl1, Hf1. rewrite <- app_assoc. now repeat split.
      * cbn. rewrite net_log_say, files_say, net_log_ensured, files_ensured,
          Hl1, Hf1. rewrite <- app_assoc. now repeat split.
    + rewrite H; cbn [fst snd].
      rewrite net_log_say, files_say, stdout_say. cbn.
      rewrite net_log_say, files_say, stdout_say, net_log_ensured,
        files_ensured, stdout_ensured, Hl1, Hf1. cbn.
      rewrite stdout_say, <- app_assoc.
      repeat split.
      exists (opening proxy
              ++ [lit "Downloading version " ++ format v ++ lit "..."]).
      rewrite <- !app_assoc. now destruct (print self).
  - rewrite H; cbn [fst snd]. rewrite net_log_say, files_say. cbn.
    rewrite net_log_say, files_say, net_log_ensured, files_ensured, Hl1, Hf1.
    rewrite <- app_assoc. now repeat split.
Qed.


(** The exchanges alone: the POST, or the POST and one GET. *)
Lemma pipeline_log self publisher extension_name proxy specific_version
    destination no_cache w :
  let session := session_of proxy in
  let post := post_request session publisher extension_name in
  let rep := send (net_log w) post in
  let r := _download_vscode_extension self publisher extension_name proxy
             specific_version destination no_cache w in
  net_log (snd r) = net_log w ++ [(post, rep)]
  \/ exists version rep',
       net_log (snd r) =
       net_log w ++ [(post, rep);
                     (get_request session publisher extension_name version,
                      rep')].
Proof.
  cbv zeta.
  destruct (pipeline_exchanges self publisher extension_name proxy
              specific_version destination no_cache w)
    as [[H _] | (resp & d & v & rep' & _ & _ & _ & _ & _ & _ & H & _)].
  - now left.
  - right. eauto.
Qed.

(** ** The identifier parser *)

Lemma start_posts self publisher extension_name w :
  net_log (snd (start self publisher extension_name w)) <> net_log w.
Proof.
  unfold start, bind. rewrite !_print_say. unfold invoke.
  set (w0 := say self _ (say self _ (say self _ w))).
  assert (H0 : net_log w0 = net_log w).
  { unfold w0. now rewrite !net_log_say. }
  pose proof (pipeline_log self publisher extension_name (proxy self)
                (version self) (destination self) (no_cache self) w0) as H.
  cbv zeta in H.
  set (r := _download_vscode_extension _ _ _ _ _ _ _ w0) in *.
  assert (Hr : net_log (snd r) <> net_log w).
  { rewrite <- H0.
    destruct H as [H | (v & rep' & H)];
      rewrite H; intros E; apply (f_equal length) in E;
      rewrite length_app in E; cbn in E; lia. }
  now destruct r as [[[]| |e] w1].
Qed.

Lemma download_cases self w :
  let ext := strip (default [] (extension self)) in
  (malformed ext /\
   download self w = (Return, say self [invalid_identifier ext] w))
  \/ (~ malformed ext /\
      exists publisher name,
        first_dot ext publisher name /\ publisher <> [] /\ name <> []
        /\ download self w = start self publisher name w).
Proof.
  cbv zeta. set (ext := strip (default [] (extension self))).
  unfold download. fold ext. cbv zeta. unfold bind at 1.
  destruct (contains dot ext) eqn:Ec; cbn [negb].
  - apply contains_In in Ec. unfold split1.
    destruct (break_at dot ext) as [p [n|]] eqn:Eb.
    + apply first_dot_break in Eb. cbn [ret].
      destruct p as [|c p].
      * left. split.
        -- right. exists [], n. split; [assumption | now left].
        -- cbn [orb]. unfold bind at 1. now rewrite report_run.
      * destruct n as [|c' n].
        -- left. split.
           ++ right. exists (c :: p), []. split; [assumption | now right].
           ++ cbn [orb]. unfold bind at 1. now rewrite report_run.
        -- right. split.
           ++ now apply (first_dot_well_formed _ _ _ Eb).
           ++ exists (c :: p), (c' :: n).
              split; [exact Eb |].
              split; [discriminate |]. split; [discriminate | reflexivity].
    + exfalso. now apply (break_at_none _ _ _ Eb).
  - left. split.
    + left. intros Hin. apply contains_In in Hin. congruence.
    + now rewrite report_run.
Qed.

(** C2. [download] trims the raw identifier. If the trimmed text has no
    dot, or nothing before or nothing after its first dot, the run reports
    the invalid identifier through [_print], returns without raising and
    leaves the exchange log (and the rest of the world) as it was; and
    only then. In every other case the text splits at the first dot only:
    the publisher is what stands before it, the name all that follows, and
    the run goes on to the pipeline with these two. *)
Theorem C2_identifier_parser (self : VSCodeExtensionDownloader) (w : world) :
  let ext := strip (default [] (extension self)) in
  (malformed ext <->
     run (download self) w = (Returned, say self [invalid_identifier ext] w))
  /\ (malformed ext <-> net_log (snd (run (download self) w)) = net_log w)
  /\ (~ malformed ext <->
      exists publisher name,
        first_dot ext publisher name /\ publisher <> [] /\ name <> []
        /\ download self w = start self publisher name w).
Proof.
  cbv zeta. pose proof (download_cases self w) as Hcases. cbv zeta in Hcases.
  set (ext := strip (default [] (extension self))) in *.
  assert (Hsay : net_log (say self [invalid_identifier ext] w) = net_log w)
    by apply net_log_say.
  destruct Hcases as [[Hm Hd] | [Hm (p & n & Hfd & Hp & Hn & Hd)]].
  - unfold run. rewrite Hd. cbn [snd]. repeat split; intros; try assumption;
      try reflexivity.
    + contradiction.
    + destruct H as (p & n & Hfd & Hp & Hn & _).
      now apply (first_dot_well_formed _ _ _ Hfd Hp Hn).
  - pose proof (start_posts self p n w) as Hlog.
    assert (Hrun : snd (run (download self) w) = snd (start self p n w)).
    { unfold run. rewrite Hd. now destruct (start self p n w) as [[[]| |e] w1]. }
    repeat split; intros.
    + contradiction.
    + exfalso. apply Hlog. rewrite <- Hrun, H. now cbn.
    + contradiction.
    + exfalso. apply Hlog. now rewrite <- Hrun.
    + exists p, n. split; [exact Hfd |]. now repeat split.
    + assumption.
Qed.

(** ** The metadata client *)

(** C8. When the metadata POST fails in transport (a timeout of the call,
    which waits at most 20, is such a failure), the run reports
    "Failed to query Marketplace API: ..." through [_print] and returns:
    the POST is the only exchange it adds to the log, so no download is
    requested, and the files and the directories are what they were, so
    the destination directory is not made. *)
Theorem C8_metadata_transport_failure self publisher extension_name proxy
    specific_version destination no_cache w e :
  let post := post_request (session_of proxy) publisher extension_name in
  send (net_log w) post = RequestException e ->
  let r := run (_download_vscode_extension self publisher extension_name
                  proxy specific_version destination no_cache) w in
  fst r = Returned
  /\ req_method post = POST /\ req_timeout post = 20%Z
  /\ net_log (snd r) = net_log w ++ [(post, RequestException e)]
  /\ stdout (snd r) =
       stdout w ++
       (if print self
        then opening proxy
             ++ [lit "Failed to query Marketplace API: " ++ e]
        else [])
  /\ files (snd r) = files w
  /\ dirs (snd r) = dirs w.
Proof.
  intros post Hsend r. subst r. unfold run.
  pose proof (pipeline_run self publisher extension_name proxy
                specific_version destination no_cache w) as H.
  cbv zeta in H. fold post in H. rewrite Hsend in H. rewrite H.
  cbn [fst snd].
  rewrite net_log_say, stdout_say, files_say, dirs_say. cbn.
  rewrite net_log_say, stdout_say, files_say, dirs_say.
  repeat split; try reflexivity.
  rewrite <- app_assoc. now destruct (print self).
Qed.

(** ** The artifact downloader *)




(** The exchanges of a run, and when the GET is among them. *)
Lemma pipeline_requests self publisher extension_name proxy specific_version
    destination no_cache w :
  let session := session_of proxy in
  let post := post_request session publisher extension_name in
  let get := get_request session publisher extension_name in
  let dir := target_dir destination in
  let w' := snd (_download_vscode_extension self publisher extension_name
                   proxy specific_version destination no_cache w) in
  let rep := send (net_log w) post in
  (net_log w' = net_log w ++ [(post, rep)]
   \/ exists resp d v rep',
        rep = Response resp /\ response_json resp = Ok d
        /\ resolved specific_version d = Some v
        /\ net_log w' = net_log w ++ [(post, rep); (get (format v), rep')])
  /\ forall resp d v,
       rep = Response resp -> status_code resp = 200%Z ->
       response_json resp = Ok d -> resolved specific_version d = Some v ->
       let file_path :=
         os_path_join dir (vsix_name publisher extension_name (format v)) in
       (resolvable w dir = true
        /\ (no_cache = true \/ present (ensured w dir) file_path = false))
       <-> exists rep',
             net_log w' = net_log w ++ [(post, rep); (get (format v), rep')].
Proof.
  cbv zeta.
  pose proof (pipeline_exchanges self publisher extension_name proxy
                specific_version destination no_cache w) as H.
  cbv zeta in H.
  split.
  - destruct H as [[H _] | (resp & d & v & rep' & Hr & _ & Hd & Hv & _ & _ & H & _)].
    + left. exact H.
    + right. exists resp, d, v, rep'. repeat split; assumption.
  - intros resp d v Hr Hs Hd Hv. split.
    + intros [Hres Hcache].
      destruct H as [(_ & _ & H) | (resp' & d' & v' & rep' & Hr' & _ & Hd' & Hv' & _ & _ & H & _)].
      * exfalso. destruct (H resp d v Hr Hs Hd Hv) as [H1 | [H1 H2]].
        -- congruence.
        -- destruct Hcache as [Hc | Hc]; congruence.
      * exists rep'.
        assert (E : v' = v).
        { rewrite Hr' in Hr. injection Hr as <-. rewrite Hd' in Hd.
          injection Hd as <-. rewrite Hv' in Hv. now injection Hv. }
        rewrite <- E. exact H.
    + intros [rep'' Hlog].
      destruct H as [(H & _) | (resp' & d' & v' & rep' & Hr' & _ & Hd' & Hv' & Hres & Hcache & _)].
      * exfalso. rewrite H in Hlog. apply app_inv_head in Hlog. discriminate.
      * assert (E : v' = v).
        { rewrite Hr' in Hr. injection Hr as <-. rewrite Hd' in Hd.
          injection Hd as <-. rewrite Hv' in Hv. now injection Hv. }
        subst v'. split; [exact Hres | exact Hcache].
Qed.

(** C6. The exchanges a run adds to the log are the metadata POST alone,
    or that POST followed by one download GET. The POST goes to the fixed
    query address with the three fixed headers and, as its body, the
    serialisation of the document
    [{"filters":[{"criteria":[{"filterType":7,"value":"<publisher>.<name>"}]}],"flags":914}];
    the GET goes to the address made of the publisher, the name and the
    version the run settled on. And the GET is issued: when the POST is
    answered with status 200 and a body that parses, and a version is
    settled, the log is the POST and that GET exactly when path resolution
    gets through and the cache test does not stop the run ([no_cache]
    holds or nothing is at the resolved path). *)
Theorem C6_requests self publisher extension_name proxy specific_version
    destination no_cache w :
  let proxies :=
    if truthy_opt proxy
    then [(lit "http", default [] proxy); (lit "https", default [] proxy)]
    else [] in
  let post :=
    {| req_method := POST;
       req_url :=
         lit "https://marketplace.visualstudio.com/_apis/public/gallery/extensionquery";
       req_headers :=
         [(lit "Content-Type", lit "application/json");
          (lit "Accept", lit "application/json;api-version=3.0-preview.1");
          (lit "User-Agent", lit "Offline VSIX/1.0")];
       req_data :=
         Some (json_dumps
           (JObj [(lit "filters",
                   JArr [JObj [(lit "criteria",
                     JArr [JObj [(lit "filterType", JInt 7);
                                 (lit "value",
                                  JStr (publisher ++ lit "." ++ extension_name))]])]]);
                  (lit "flags", JInt 914)]));
       req_timeout := 20;
       req_proxies := proxies |} in
  let get (version : str) :=
    {| req_method := GET;
       req_url :=
         lit "https://" ++ publisher
         ++ lit ".gallery.vsassets.io/_apis/public/gallery/publisher/"
         ++ publisher ++ lit "/extension/" ++ extension_name ++ lit "/"
         ++ version
         ++ lit "/assetbyname/Microsoft.VisualStudio.Services.VSIXPackage";
       req_headers := []; req_data := None; req_timeout := 60;
       req_proxies := proxies |} in
  let dir :=
    if truthy_opt destination then default [] destination
    else lit "extensions" in
  let w' := snd (_download_vscode_extension self publisher extension_name
                   proxy specific_version destination no_cache w) in
  let rep := send (net_log w) post in
  (net_log w' = net_log w ++ [(post, rep)]
   \/ exists resp d v rep',
        rep = Response resp /\ response_json resp = Ok d
        /\ resolved specific_version d = Some v
        /\ net_log w' = net_log w ++ [(post, rep); (get (format v), rep')])
  /\ forall resp d v,
       rep = Response resp -> status_code resp = 200%Z ->
       response_json resp = Ok d -> resolved specific_version d = Some v ->
       let file_path :=
         os_path_join dir
           (publisher ++ lit "." ++ extension_name ++ lit "-" ++ format v
            ++ lit ".vsix") in
       (resolvable w dir = true
        /\ (no_cache = true \/ present (ensured w dir) file_path = false))
       <-> exists rep',
             net_log w' = net_log w ++ [(post, rep); (get (format v), rep')].
Proof.
  exact (pipeline_requests self publisher extension_name proxy
           specific_version destination no_cache w).
Qed.

(** C7 (as amended). Take a run and a GET of it that was answered with a
    response. That GET is the only one of the run and asks for the version
    the run settled on. If its status is 200, the response's bytes go to
    the path that joins the destination (or "extensions") and
    [<publisher>.<name>-<version>.vsix], and what becomes of them is for
    the operating system to say: where it stores them, the run ends
    normally and the file table is the one before the run with exactly
    these bytes at the path; where it refuses to open the file, [OSError]
    leaves the run and no file changes; where the write breaks off,
    [OSError] leaves the run and the file holds the bytes written so far.
    With any other status the run ends normally, no file changes, and the
    last thing given to [_print] is the failure message with the
    identifier and the version. *)
Theorem C7_artifact_file self publisher extension_name proxy
    specific_version destination no_cache w new get got :
  let r := _download_vscode_extension self publisher extension_name proxy
             specific_version destination no_cache w in
  net_log (snd r) = net_log w ++ new ->
  In (get, Response got) new ->
  req_method get = GET ->
  exists version,
    let dir :=
      if truthy_opt destination then default [] destination
      else lit "extensions" in
    let file_path :=
      os_path_join dir
        (publisher ++ lit "." ++ extension_name ++ lit "-" ++ version
         ++ lit ".vsix") in
    req_url get = download_url publisher extension_name version
    /\ requests_of GET new = [get]
    /\ if (status_code got =? 200)%Z
       then
         match saves os (files w) (dirs (ensured w dir)) file_path
                 (content got) with
         | Stored =>
             fst r = Next tt
             /\ files (snd r) = <[file_path := content got]> (files w)
             /\ files (snd r) !! file_path = Some (content got)
         | Refused => fst r = Raise OSError /\ files (snd r) = files w
         | Torn n =>
             fst r = Raise OSError
             /\ files (snd r) = <[file_path := take n (content got)]> (files w)
         end
       else fst r = Next tt
            /\ files (snd r) = files w
            /\ exists earlier,
                 stdout (snd r) = stdout w ++
                   if print self
                   then earlier ++
                          [lit "Failed to download " ++ publisher ++ lit "."
                           ++ extension_name ++ lit "-" ++ version
                           ++ lit ".vsix"]
                   else [].
Proof.
  cbv zeta. intros Hnew Hin Hget.
  pose proof (pipeline_exchanges self publisher extension_name proxy
                specific_version destination no_cache w) as H.
  cbv zeta in H.
  destruct H as [[H _] | (resp & d & v & rep' & _ & _ & _ & _ & _ & _ & H & Hrest)].
  - rewrite Hnew in H. apply app_inv_head in H. subst new.
    destruct Hin as [Hin | []]. injection Hin as <- _. discriminate.
  - rewrite Hnew in H. apply app_inv_head in H. subst new.
    destruct Hin as [Hin | [Hin | []]].
    { injection Hin as <- _. discriminate. }
    injection Hin as <- ->. exists (format v).
    split; [reflexivity |]. split; [reflexivity |].
    destruct (status_code got =? 200)%Z; [| exact Hrest].
    change (if truthy_opt destination then default [] destination
            else lit "extensions") with (target_dir destination).
    change (publisher ++ lit "." ++ extension_name ++ lit "-" ++ format v
            ++ lit ".vsix")
      with (vsix_name publisher extension_name (format v)).
    destruct (saves os (files w) (dirs (ensured w (target_dir destination)))
                (os_path_join (target_dir destination)
                   (vsix_name publisher extension_name (format v)))
                (content got)); try exact Hrest.
    destruct Hrest as [Hf Hfiles]. split; [exact Hf |].
    split; [exact Hfiles |]. rewrite Hfiles. apply lookup_insert_eq.
Qed.

(** C4 (as amended). Every run starts with the one metadata POST. With
    an override that is not empty, a transport failure, a status other
    than 200 or a body that does not parse still ends the run there; on a
    body that parses, whatever document it holds, the run goes on to path
    resolution and download with the override itself as the version, in
    the file name and in the download address. An empty override counts
    as none: the run is the run without an override, and the version it
    goes on with is the one the chain of lookups finds in the answer. *)
Theorem C4_version_override self publisher extension_name proxy
    specific_version destination no_cache w :
  let v := default [] specific_version in
  let session := session_of proxy in
  let post := post_request session publisher extension_name in
  let get := get_request session publisher extension_name in
  let rep := send (net_log w) post in
  let w1 := logged (say self (opening proxy) w) post rep in
  let dir := target_dir destination in
  let r := _download_vscode_extension self publisher extension_name proxy
             specific_version destination no_cache w in
  req_method post = POST
  /\ if truthy_opt specific_version then
       (exists rep',
          net_log (snd r) = net_log w ++ [(post, rep)]
          \/ net_log (snd r) = net_log w ++ [(post, rep); (get v, rep')])
       /\ match rep with
          | RequestException e =>
              r = (Return,
                   say self [lit "Failed to query Marketplace API: " ++ e] w1)
          | Response resp =>
              if (status_code resp =? 200)%Z then
                match response_json resp with
                | Exc e =>
                    r = if value_error e
                        then (Return,
                              say self
                                [lit "Failed to parse Marketplace API response"]
                                w1)
                        else (Raise e, w1)
                | Ok d =>
                    r = if resolvable w1 dir
                        then fetch self session publisher extension_name v
                               (os_path_join dir
                                  (publisher ++ lit "." ++ extension_name
                                   ++ lit "-" ++ v ++ lit ".vsix"))
                               no_cache (ensured w1 dir)
                        else (Raise OSError, ensured w1 dir)
                end
              else r = (Return,
                        say self [lit "Failed to query Marketplace API"] w1)
          end
     else
       r = _download_vscode_extension self publisher extension_name proxy
             None destination no_cache w
       /\ forall resp d,
            rep = Response resp -> status_code resp = 200%Z ->
            response_json resp = Ok d ->
            match latest_version d with
            | Some found =>
                r = if resolvable w1 dir
                    then fetch self session publisher extension_name
                           (format found)
                           (os_path_join dir
                              (publisher ++ lit "." ++ extension_name
                               ++ lit "-" ++ format found ++ lit ".vsix"))
                           no_cache (ensured w1 dir)
                    else (Raise OSError, ensured w1 dir)
            | None =>
                r = if object_for_list d then (Raise KeyError, w1)
                    else (Return,
                          say self
                            [extension_not_found publisher extension_name] w1)
            end.
Proof.
  cbv zeta. split; [reflexivity |].
  pose proof (pipeline_run self publisher extension_name proxy
                specific_version destination no_cache w) as H.
  cbv zeta in H.
  destruct (truthy_opt specific_version) eqn:Et.
  - split.
    + pose proof (pipeline_exchanges self publisher extension_name proxy
                    specific_version destination no_cache w) as Hx.
      cbv zeta in Hx.
      destruct Hx as [[Hx _] | (resp & d & v' & rep' & _ & _ & _ & Hres & _ & _ & Hx & _)].
      * exists (send (net_log w)
                  (post_request (session_of proxy) publisher extension_name)).
        now left.
      * exists rep'. right. unfold resolved in Hres. rewrite Et in Hres.
        injection Hres as <-. exact Hx.
    + destruct (send (net_log w)
                  (post_request (session_of proxy) publisher extension_name))
        as [resp|e]; [| exact H].
      destruct (status_code resp =? 200)%Z; [| exact H].
      destruct (response_json resp) as [d|e]; [| exact H].
      unfold resolved in H. rewrite Et, store_run in H. exact H.
  - split.
    + destruct specific_version as [[|c s]|]; [reflexivity | discriminate |
        reflexivity].
    + intros resp d Hr Hs Hd. rewrite Hr, Hs, Hd in H. cbn [Z.eqb Pos.eqb] in H.
      unfold resolved in H. rewrite Et in H. rewrite Hr.
      destruct (latest_version d) as [found|]; [| exact H].
      rewrite store_run in H. exact H.
Qed.

(** ** The command surface and the batch runner *)

Lemma batch_file_missing file_path proxy version destination no_cache verbose w :
  present w file_path = false ->
  download_plugins_from_file file_path proxy version destination no_cache
    verbose w
  = (Return, printed w [lit "File not found: " ++ file_path]).
Proof.
  intros H. unfold download_plugins_from_file, bind, os_path_exists.
  fold (present w file_path). now rewrite H.
Qed.

Lemma batch_file_lines file_path proxy version destination no_cache verbose
    w bytes text :
  files w !! file_path = Some bytes ->
  utf8_decode (map Byte.to_N bytes) = Some text ->
  download_plugins_from_file file_path proxy version destination no_cache
    verbose w
  = for_each (readlines text)
      (download_line proxy version destination no_cache verbose) w.
Proof.
  intros Hf Hd. unfold download_plugins_from_file, bind, os_path_exists.
  assert (Hp : bool_decide (is_Some (files w !! file_path))
               || bool_decide (file_path ∈ dirs w) = true).
  { rewrite Hf, bool_decide_eq_true_2 by eauto. reflexivity. }
  rewrite Hp. cbn [negb ret]. unfold read_lines. now rewrite Hf, Hd.
Qed.

Lemma snd_invoke (c : M unit) w : snd (invoke c w) = snd (c w).
Proof. unfold invoke. now destruct (c w) as [[[]| |e] w1]. Qed.

Lemma usage_not_plain : ~ plain usage.
Proof. unfold plain. discriminate. Qed.

Lemma start_prints self publisher extension_name w :
  print self = true ->
  exists rest,
    stdout (snd (start self publisher extension_name w))
    = stdout w ++ times 61 50 :: rest.
Proof.
  intros Hp. unfold start, bind. rewrite !_print_say, !say_say.
  set (w0 := say self _ w).
  destruct (steps_invoke (emits plain) _
              (download_vscode_extension_plain self publisher extension_name
                 (proxy self) (version self) (destination self)
                 (no_cache self)) w0) as [msgs [H _]].
  rewrite H. unfold w0. rewrite stdout_say, Hp, <- app_assoc.
  cbn [app]. eauto.
Qed.

Lemma download_prints self w :
  print self = true ->
  exists first rest,
    stdout (snd (download self w)) = stdout w ++ first :: rest.
Proof.
  intros Hp.
  destruct (download_cases self w)
    as [[_ Hd] | [_ (p & n & _ & _ & _ & Hd)]]; rewrite Hd.
  - cbn [snd]. rewrite stdout_say, Hp. eauto.
  - destruct (start_prints self p n w Hp) as [rest H]. eauto.
Qed.

(** C1 (as amended). When [--no-print] is not on the command line its
    value is the default, true, and [cli] hands that value on as the
    [print] switch: to the one downloader it builds for the positional
    identifier, and to the batch runner, which builds with it the
    downloader of every line that is not blank. With the switch on
    [_print] prints. So the messages are printed, not suppressed: whatever
    the outcome, a run of [download] for this invocation prints at least
    one line, and so does the invocation itself when no list file is
    named. *)
Theorem C1_messages_by_default (c : command_line) (w : world) :
  given_no_print c = None ->
  let downloader (identifier : option str) :=
    {| extension := identifier; proxy := given_proxy c;
       version := given_version c; destination := given_destination c;
       no_cache := given_no_cache c; print := true |} in
  let batch :=
    download_plugins_from_file (default [] (given_file c)) (given_proxy c)
      (given_version c) (given_destination c) (given_no_cache c) true in
  let each :=
    download_line (given_proxy c) (given_version c) (given_destination c)
      (given_no_cache c) true in
  no_print_value c = true
  /\ main c w =
       (if truthy_opt (given_file c) then invoke batch w
        else if truthy_opt (given_extension c)
             then invoke (download (downloader (given_extension c))) w
             else py_print usage w)
  /\ (forall bytes text,
        files w !! default [] (given_file c) = Some bytes ->
        utf8_decode (map Byte.to_N bytes) = Some text ->
        batch w = for_each (readlines text) each w)
  /\ (forall line w0,
        each line w0 =
        if blank line then (Next tt, w0)
        else invoke (download (downloader (Some (strip line)))) w0)
  /\ (forall identifier msg w0,
        _print (downloader identifier) msg w0 = py_print msg w0)
  /\ (forall identifier w0,
        exists first rest,
          stdout (snd (download (downloader identifier) w0))
          = stdout w0 ++ first :: rest)
  /\ (truthy_opt (given_file c) = false ->
      exists first rest, stdout (snd (main c w)) = stdout w ++ first :: rest).
Proof.
  intros Hc. cbv zeta. unfold main, no_print_value. rewrite Hc.
  cbn [default]. unfold cli.
  split; [reflexivity |].
  split.
  { now destruct (truthy_opt (given_file c)), (truthy_opt (given_extension c)). }
  split; [intros bytes text; apply batch_file_lines |].
  split.
  { intros line w0. unfold download_line, blank.
    now destruct (strip line). }
  split; [reflexivity |].
  split; [intros identifier w0; now apply download_prints |].
  intros ->. destruct (truthy_opt (given_extension c)).
  - rewrite snd_invoke. now apply download_prints.
  - exists usage, []. reflexivity.
Qed.

(** C10 (as amended). When the value of [--file] is not empty, [cli] runs
    the batch for that file and nothing else, whatever the positional
    argument is; when it is absent or empty and the positional argument is
    not, [cli] runs the pipeline for the positional argument. The usage
    line is printed exactly when both are absent or empty. *)
Theorem C10_dispatch (extension file proxy version destination : option str)
    (no_cache no_print : bool) (w : world) :
  let r := cli extension file proxy version destination no_cache no_print w in
  (if truthy_opt file then
     r = invoke (download_plugins_from_file (default [] file) proxy version
                   destination no_cache no_print) w
     /\ forall other,
          cli other file proxy version destination no_cache no_print w = r
   else if truthy_opt extension then
     r = invoke (download
                   {| extension := extension; proxy := proxy;
                      version := version; destination := destination;
                      no_cache := no_cache; print := no_print |}) w
   else r = py_print usage w)
  /\ exists msgs,
       stdout (snd r) = stdout w ++ msgs
       /\ (In usage msgs <->
           truthy_opt file = false /\ truthy_opt extension = false).
Proof.
  cbv zeta. unfold cli.
  destruct (truthy_opt file).
  - split; [split; [reflexivity | intros other; reflexivity] |].
    destruct (steps_invoke (emits plain) _
                (download_plugins_from_file_plain (default [] file) proxy
                   version destination no_cache no_print) w)
      as [msgs [H HP]].
    exists msgs. split; [exact H |]. split; [| now intros []].
    intros Hin. exfalso. apply usage_not_plain.
    rewrite Forall_forall in HP. apply HP. now apply list_elem_of_In.
  - destruct (truthy_opt extension).
    + split; [reflexivity |].
      destruct (steps_invoke (emits plain) _
                  (download_plain
                     {| extension := extension; proxy := proxy;
                        version := version; destination := destination;
                        no_cache := no_cache; print := no_print |}) w)
        as [msgs [H HP]].
      exists msgs. split; [exact H |]. split; [| now intros []].
      intros Hin. exfalso. apply usage_not_plain.
      rewrite Forall_forall in HP. apply HP. now apply list_elem_of_In.
    + split; [reflexivity |]. exists [usage].
      split; [reflexivity |]. split; [now split | intros _; now left].
Qed.

Lemma for_each_next {A} (x : A) (l : list A) (body : A -> M unit) w w1 :
  body x w = (Next tt, w1) ->
  for_each (x :: l) body w = for_each l body w1.
Proof. intros H. cbn [for_each]. unfold bind. now rewrite H. Qed.

Lemma for_each_raise {A} (x : A) (l : list A) (body : A -> M unit) w w1 e :
  body x w = (Raise e, w1) ->
  for_each (x :: l) body w = (Raise e, w1).
Proof. intros H. cbn [for_each]. unfold bind. now rewrite H. Qed.

(** A line of the list file never ends the loop by a [return]: its run
    ends normally or raises. *)
Lemma download_line_flow proxy version destination no_cache verbose line w :
  fst (download_line proxy version destination no_cache verbose line w)
  <> Return.
Proof.
  unfold download_line. destruct (strip line); [discriminate |].
  unfold invoke. now destruct (download _ w) as [[[]| |e] w1].
Qed.

Lemma download_line_blank proxy version destination no_cache verbose line w :
  strip line = [] ->
  download_line proxy version destination no_cache verbose line w
  = (Next tt, w).
Proof. intros H. unfold download_line. now rewrite H. Qed.

Lemma download_line_malformed proxy version destination no_cache verbose
    line w :
  strip line <> [] -> malformed (strip line) ->
  download_line proxy version destination no_cache verbose line w
  = (Next tt,
     if verbose then printed w [invalid_identifier (strip line)] else w).
Proof.
  intros Hne Hm. unfold download_line.
  destruct (strip line) as [|c l] eqn:E; [contradiction |].
  unfold invoke.
  set (self := {| extension := Some (c :: l); print := verbose |}).
  assert (Hs : strip (default [] (extension self)) = c :: l).
  { cbn [self extension default]. rewrite <- E. apply strip_idempotent. }
  pose proof (download_cases self w) as Hc. cbv zeta in Hc. rewrite Hs in Hc.
  destruct Hc as [[_ Hd] | [Hn _]].
  - rewrite Hd. reflexivity.
  - exfalso. apply Hn. exact Hm.
Qed.

(** ** Further properties of the pipeline *)

(** X1. Every request of a run goes through the session's proxies: both
    schemes are set to the proxy when one is given and not empty, and no
    proxy is set otherwise. *)
Theorem requests_through_proxy self publisher extension_name proxy
    specific_version destination no_cache w :
  let w' := snd (_download_vscode_extension self publisher extension_name
                   proxy specific_version destination no_cache w) in
  exists new,
    net_log w' = net_log w ++ new
    /\ new <> []
    /\ Forall (fun x =>
         req_proxies (fst x) =
         match proxy with
         | Some (c :: p) => [(lit "http", c :: p); (lit "https", c :: p)]
         | _ => []
         end) new.
Proof.
  cbv zeta.
  pose proof (pipeline_log self publisher extension_name proxy
                specific_version destination no_cache w) as H.
  cbv zeta in H.
  assert (Hp : session_proxies (session_of proxy) =
               match proxy with
               | Some (c :: p) => [(lit "http", c :: p); (lit "https", c :: p)]
               | _ => []
               end).
  { now destruct proxy as [[|c p]|]. }
  destruct H as [H | (v & rep' & H)];
    rewrite H; eexists; (split; [reflexivity |]); (split; [discriminate |]);
    repeat constructor; exact Hp.
Qed.

(** X2. A metadata answer with a status other than 200 ends the run,
    override or not: "Failed to query Marketplace API" goes to [_print],
    the run returns, the POST is its only exchange, and no file or
    directory is made. *)
Theorem metadata_status_aborts self publisher extension_name proxy
    specific_version destination no_cache w resp :
  let post := post_request (session_of proxy) publisher extension_name in
  send (net_log w) post = Response resp ->
  status_code resp <> 200%Z ->
  let r := run (_download_vscode_extension self publisher extension_name
                  proxy specific_version destination no_cache) w in
  r = (Returned,
       say self [lit "Failed to query Marketplace API"]
         (logged (say self (opening proxy) w) post (Response resp)))
  /\ net_log (snd r) = net_log w ++ [(post, Response resp)]
  /\ files (snd r) = files w /\ dirs (snd r) = dirs w.
Proof.
  intros post Hsend Hs r. subst r. unfold run.
  pose proof (pipeline_run self publisher extension_name proxy
                specific_version destination no_cache w) as H.
  cbv zeta in H. fold post in H. rewrite Hsend in H.
  apply Z.eqb_neq in Hs. rewrite Hs in H. rewrite H.
  cbn [snd]. rewrite net_log_say, files_say, dirs_say. cbn.
  rewrite net_log_say, files_say, dirs_say. now repeat split.
Qed.

(** X3. A metadata answer with status 200 whose body does not parse
    ([response.json()] raises [ValueError]) ends the run, override or not:
    "Failed to parse Marketplace API response" goes to [_print], the run
    returns, the POST is its only exchange, and no file or directory is
    made. *)
Theorem metadata_unparsable_aborts self publisher extension_name proxy
    specific_version destination no_cache w resp :
  let post := post_request (session_of proxy) publisher extension_name in
  send (net_log w) post = Response resp ->
  status_code resp = 200%Z ->
  response_json resp = Exc ValueError ->
  let r := run (_download_vscode_extension self publisher extension_name
                  proxy specific_version destination no_cache) w in
  r = (Returned,
       say self [lit "Failed to parse Marketplace API response"]
         (logged (say self (opening proxy) w) post (Response resp)))
  /\ net_log (snd r) = net_log w ++ [(post, Response resp)]
  /\ files (snd r) = files w /\ dirs (snd r) = dirs w.
Proof.
  intros post Hsend Hs Hj r. subst r. unfold run.
  pose proof (pipeline_run self publisher extension_name proxy
                specific_version destination no_cache w) as H.
  cbv zeta in H. fold post in H. rewrite Hsend, Hs, Hj in H. cbn in H.
  rewrite H. cbn [snd]. rewrite net_log_say, files_say, dirs_say. cbn.
  rewrite net_log_say, files_say, dirs_say. now repeat split.
Qed.

(** X4. Path resolution (lines 100-107) touches nothing but the table of
    directories, and only adds to it. It ends with the path or with the
    [OSError] of [os.makedirs], never with a return. Where something was
    at the directory it leaves the world as it is. Where it ends with the
    path, something is at the directory afterwards, and resolving again
    from there gives the same path and changes nothing. *)
Theorem resolve_path_makes_directory publisher extension_name destination
    version w :
  let dir := target_dir destination in
  let r := resolve_path publisher extension_name destination version w in
  files (snd r) = files w
  /\ net_log (snd r) = net_log w
  /\ stdout (snd r) = stdout w
  /\ dirs w ⊆ dirs (snd r)
  /\ (if present w dir then snd r = w else snd r = made w dir)
  /\ match fst r with
     | Next _ =>
         present (snd r) dir = true
         /\ resolve_path publisher extension_name destination version (snd r)
            = r
     | Return => False
     | Raise e =>
         e = OSError /\ present w dir = false
         /\ makes os (files w) (dirs w) dir = false
     end.
Proof.
  cbv zeta. rewrite resolve_path_run. cbn [fst snd].
  set (dir := target_dir destination).
  rewrite files_ensured, net_log_ensured, stdout_ensured.
  repeat (split; [reflexivity |]).
  split.
  { unfold ensured. destruct (present w dir); [reflexivity |].
    cbn [made dirs]. apply union_subseteq_r. }
  split.
  { unfold ensured. now destruct (present w dir). }
  destruct (resolvable w dir) eqn:Er.
  - pose proof (present_ensured w dir Er) as Hp. split; [exact Hp |].
    rewrite resolve_path_run. fold dir. unfold resolvable at 1. rewrite Hp.
    cbn [orb]. f_equal. unfold ensured at 1. now rewrite Hp.
  - unfold resolvable in Er. apply orb_false_iff in Er. now repeat split.
Qed.

(** X5. When the download GET fails in transport, the run reports
    "Failed to download asset: ..." and returns without a retry; no file
    is written, but the directory made by path resolution stays. (Where
    [os.makedirs] raises instead, the run ends there with its
    [OSError].) *)
Theorem download_transport_failure self session publisher extension_name
    destination version no_cache w e :
  let dir := target_dir destination in
  let file_path :=
    os_path_join dir (vsix_name publisher extension_name version) in
  let get := get_request session publisher extension_name version in
  no_cache = true \/ present (ensured w dir) file_path = false ->
  send (net_log w) get = RequestException e ->
  let r :=
    (let! file_path :=
       resolve_path publisher extension_name destination version in
     fetch self session publisher extension_name version file_path no_cache)
      w in
  if resolvable w dir then
    fst r = Return
    /\ net_log (snd r) = net_log w ++ [(get, RequestException e)]
    /\ stdout (snd r) =
         stdout w ++
         (if print self
          then [lit "Downloading version " ++ version ++ lit "...";
                lit "Failed to download asset: " ++ e]
          else [])
    /\ files (snd r) = files w
    /\ present (snd r) dir = true
  else r = (Raise OSError, ensured w dir).
Proof.
  intros dir file_path get Hcache Hsend r. subst r.
  rewrite store_run. fold dir file_path.
  destruct (resolvable w dir) eqn:Er; [| reflexivity].
  rewrite fetch_run.
  assert (Hb : negb no_cache && present (ensured w dir) file_path = false).
  { destruct Hcache as [-> | ->]; [reflexivity | apply andb_false_r]. }
  rewrite Hb. cbv zeta. rewrite net_log_ensured. fold get. rewrite Hsend.
  cbn [fst snd]. rewrite present_say.
  repeat (rewrite ?net_log_say, ?stdout_say, ?files_say, ?net_log_ensured,
            ?stdout_ensured, ?files_ensured;
          cbn [logged net_log stdout files]).
  repeat split.
  - rewrite <- app_assoc. now destruct (print self).
  - unfold present at 1. cbn [logged files dirs]. rewrite files_say, dirs_say.
    fold (present (ensured w dir) dir). now apply present_ensured.
Qed.

(** X6. Write, then test: after a download that was answered with status
    200 and whose bytes the operating system stored, the file holds the
    response bytes, and from that world a further [fetch] of the same path
    without [no_cache], by any downloader and session, is a cache hit: it
    issues no request, reports that the file already exists and leaves the
    world as it is but for the report. *)
Theorem downloaded_then_cached self session publisher extension_name version
    file_path no_cache w got :
  let get := get_request session publisher extension_name version in
  no_cache = true \/ present w file_path = false ->
  send (net_log w) get = Response got ->
  status_code got = 200%Z ->
  saves os (files w) (dirs w) file_path (content got) = Stored ->
  let w1 := snd (fetch self session publisher extension_name version
                   file_path no_cache w) in
  files w1 !! file_path = Some (content got)
  /\ forall self' session',
       fetch self' session' publisher extension_name version file_path
         false w1
       = (Return,
          say self' [lit "File " ++ file_path ++ lit " already exists.";
                     lit "Use --no-cache to force re-download."] w1).
Proof.
  intros get Hcache Hsend Hs Hsaves w1.
  assert (Hb : negb no_cache && present w file_path = false).
  { destruct Hcache as [-> | ->]; [reflexivity | apply andb_false_r]. }
  assert (Hf : files w1 !! file_path = Some (content got)).
  { unfold w1. rewrite fetch_run, Hb. cbv zeta. fold get.
    rewrite Hsend, Hs, Hsaves. cbn [snd Z.eqb Pos.eqb]. rewrite files_say. cbn.
    apply lookup_insert_eq. }
  split; [exact Hf |]. intros self' session'.
  rewrite fetch_run.
  assert (Hp : present w1 file_path = true).
  { unfold present. rewrite Hf.
    rewrite (bool_decide_eq_true_2 (is_Some (Some (content got)))) by eauto.
    reflexivity. }
  now rewrite Hp.
Qed.




(** A loop raises what the body raised on one of its elements. *)
Lemma for_each_raises {A} (l : list A) (body : A -> M unit) w e :
  fst (for_each l body w) = Raise e ->
  exists x w0, In x l /\ fst (body x w0) = Raise e.
Proof.
  revert w. induction l as [|x l IH]; intros w; cbn [for_each].
  - discriminate.
  - unfold bind. destruct (body x w) as [[[]| |e'] w1] eqn:E; cbn [fst].
    + intros H. destruct (IH w1 H) as (y & w0 & Hin & Hy).
      exists y, w0. split; [now right | exact Hy].
    + discriminate.
    + intros [= ->]. exists x, w. split; [now left |]. now rewrite E.
Qed.

(** X8. When a batch run raises. Either the list could not be read, and
    then the exception is the one of the reading and leaves before any
    line is run, with the world untouched; or the list was read and the
    exception is one that [download] raised on a line of it, trimmed and
    not blank, the downloader built with the options of the batch. *)
Theorem batch_raise_cases file_path proxy version destination no_cache
    verbose w e :
  let r := run (download_plugins_from_file file_path proxy version
                  destination no_cache verbose) w in
  fst r = Raised e ->
  present w file_path = true
  /\ ((fst (read_lines file_path w) = Raise e /\ snd r = w)
      \/ exists lines line w0,
           read_lines file_path w = (Next lines, w)
           /\ In line lines /\ strip line <> []
           /\ fst (download
                     {| extension := Some (strip line); proxy := proxy;
                        version := version; destination := destination;
                        no_cache := no_cache; print := verbose |} w0)
              = Raise e).
Proof.
  cbv zeta. unfold run. intros Hr.
  destruct (present w file_path) eqn:Ep.
  2:{ rewrite batch_file_missing in Hr by exact Ep. discriminate. }
  split; [reflexivity |].
  unfold download_plugins_from_file, bind, os_path_exists in *.
  fold (present w file_path) in *. rewrite Ep in *. cbn [negb ret] in *.
  assert (Hw : snd (read_lines file_path w) = w).
  { unfold read_lines. destruct (files w !! file_path) as [bytes|]; [| easy].
    now destruct (utf8_decode (map Byte.to_N bytes)). }
  destruct (read_lines file_path w) as [[lines| |e'] w1] eqn:Er;
    cbn [snd] in Hw; subst w1.
  - right.
    assert (Hl : fst (for_each lines
                        (download_line proxy version destination no_cache
                           verbose) w) = Raise e).
    { destruct (for_each lines _ w) as [[[]| |e'] w1]; cbn [fst] in *;
        congruence. }
    destruct (for_each_raises _ _ _ _ Hl) as (line & w0 & Hin & Hline).
    exists lines, line, w0. split; [reflexivity |]. split; [exact Hin |].
    unfold download_line in Hline.
    destruct (strip line) as [|c l] eqn:Es; [discriminate |].
    split; [discriminate |]. unfold invoke in Hline.
    destruct (download _ w0) as [[[]| |e'] w1]; cbn [fst] in *; congruence.
  - discriminate.
  - left. cbn [fst snd] in *. split; [congruence | reflexivity].
Qed.

(** ** Silence *)

Lemma emits_none w w' : emits (fun _ => False) w w' -> stdout w' = stdout w.
Proof.
  intros [msgs [H F]]. destruct msgs as [|m msgs].
  - now rewrite app_nil_r in H.
  - now inversion F.
Qed.

Lemma emits_print_off P self msg :
  print self = false -> steps (emits P) (_print self msg).
Proof. intros H. unfold _print. rewrite H. apply steps_ret, emits_refl. Qed.

Ltac hush :=
  repeat
    match goal with
    | |- steps _ (bind _ _) =>
        apply (steps_bind _ (@emits_trans _)); [| intros ?]
    | |- steps _ (ret _) => apply (steps_ret _ (@emits_refl _))
    | |- steps _ return_ => apply (steps_return _ (@emits_refl _))
    | |- steps _ (raise _) => apply (steps_raise _ (@emits_refl _))
    | |- steps _ (lift _) => apply (steps_lift _ (@emits_refl _))
    | |- steps _ (try_except _ _ _) =>
        apply (steps_try_except _ (@emits_trans _))
    | |- steps _ (invoke _) => apply steps_invoke
    | |- steps _ (for_each _ _) =>
        apply (steps_for_each _ (@emits_refl _) (@emits_trans _)); intros ?
    | |- steps _ (_print _ _) =>
        apply emits_print_off; first [assumption | reflexivity]
    | |- steps _ (session_request _ _ _ _ _ _) => apply emits_session_request
    | |- steps _ (os_path_exists _) => apply emits_exists
    | |- steps _ (os_makedirs _) => apply emits_makedirs
    | |- steps _ (write_bytes _ _) => apply emits_write
    | |- steps _ (read_lines _) => apply emits_read_lines
    | |- steps _ (if ?b then _ else _) => destruct b
    | |- steps _ (match ?x with _ => _ end) => destruct x
    end.

Lemma download_silent self :
  print self = false -> steps (emits (fun _ => False)) (download self).
Proof.
  intros Hp.
  unfold download, start, _download_vscode_extension, open_session, query,
    select_version, extract_version, resolve_path, fetch.
  cbv zeta. hush.
Qed.

(** X9. With the print switch off [download] is silent: in every outcome,
    a raised exception included, nothing is added to standard output. *)
Theorem quiet_download self w :
  print self = false -> stdout (snd (download self w)) = stdout w.
Proof. intros Hp. apply emits_none. now apply download_silent. Qed.

(** X10. The batch runner in quiet mode prints at most one line: nothing
    when something is at the list path, and "File not found: <path>" when
    nothing is, since that report goes to [print] and not to [_print]. *)
Theorem quiet_batch file_path proxy version destination no_cache w :
  stdout (snd (download_plugins_from_file file_path proxy version destination
                 no_cache false w))
  = stdout w ++
    (if present w file_path then []
     else [lit "File not found: " ++ file_path]).
Proof.
  destruct (present w file_path) eqn:Ep.
  - rewrite app_nil_r. apply emits_none.
    revert w Ep. 
    assert (H : forall w, present w file_path = true ->
              emits (fun _ => False) w
                (snd (download_plugins_from_file file_path proxy version
                        destination no_cache false w))).
    { intros w Ep. unfold download_plugins_from_file, bind at 1, os_path_exists.
      fold (present w file_path). rewrite Ep. cbn [negb].
      assert (Hs : steps (emits (fun _ => False))
                (ret tt >>
                 let! extensions := read_lines file_path in
                 for_each extensions
                   (download_line proxy version destination no_cache false))).
      { unfold download_line. cbv zeta. hush. now apply download_silent. }
      apply Hs. }
    exact H.
  - now rewrite batch_file_missing.
Qed.

(** ** The print switch changes nothing but the output *)

Lemma same_store_refl w : same_store w w.
Proof. now repeat split. Qed.

Lemma agree_ret {A} (a : A) : agree (ret a) (ret a).
Proof. intros w w' H. now split. Qed.

Lemma agree_return {A} : agree (@return_ A) return_.
Proof. intros w w' H. now split. Qed.

Lemma agree_raise {A} (e : exn) : agree (@raise A e) (raise e).
Proof. intros w w' H. now split. Qed.

Lemma agree_lift {A} (r : res A) : agree (lift r) (lift r).
Proof. destruct r; [apply agree_ret | apply agree_raise]. Qed.

Lemma agree_bind {A B} (c c' : M A) (k k' : A -> M B) :
  agree c c' -> (forall a, agree (k a) (k' a)) -> agree (bind c k) (bind c' k').
Proof.
  intros Hc Hk w w' H. unfold bind. destruct (Hc w w' H) as [Hf Hs].
  destruct (c w) as [[a| |e] w1], (c' w') as [[a'| |e'] w1'];
    cbn [fst snd] in *; try discriminate.
  - injection Hf as <-. now apply Hk.
  - split; [reflexivity | assumption].
  - split; [congruence | assumption].
Qed.

Lemma agree_try_except {A} (c c' h h' : M A) (handles : exn -> bool) :
  agree c c' -> agree h h' ->
  agree (try_except c handles h) (try_except c' handles h').
Proof.
  intros Hc Hh w w' H. unfold try_except. destruct (Hc w w' H) as [Hf Hs].
  destruct (c w) as [[a| |e] w1], (c' w') as [[a'| |e'] w1'];
    cbn [fst snd] in *; try discriminate; try (split; assumption).
  injection Hf as <-. destruct (handles e); [now apply Hh | now split].
Qed.

Lemma agree_invoke (c c' : M unit) : agree c c' -> agree (invoke c) (invoke c').
Proof.
  intros Hc w w' H. unfold invoke. destruct (Hc w w' H) as [Hf Hs].
  destruct (c w) as [[a| |e] w1], (c' w') as [[a'| |e'] w1'];
    cbn [fst snd] in *; try discriminate; (split; [congruence | assumption]).
Qed.

Lemma agree_for_each {A} (l : list A) (body body' : A -> M unit) :
  (forall x, agree (body x) (body' x)) ->
  agree (for_each l body) (for_each l body').
Proof.
  intros Hb. induction l as [|x l IH]; cbn [for_each].
  - apply agree_ret.
  - apply agree_bind; [apply Hb | intros _; exact IH].
Qed.

Lemma agree_print self self' msg msg' :
  agree (_print self msg) (_print self' msg').
Proof.
  intros w w' H. rewrite !_print_say. cbn [fst snd]. split; [reflexivity |].
  destruct H as (Hf & Hd & Hl). unfold same_store.
  now rewrite !files_say, !dirs_say, !net_log_say.
Qed.

Lemma agree_py_print msg : agree (py_print msg) (py_print msg).
Proof. intros w w' H. split; [reflexivity | exact H]. Qed.

Lemma agree_session_request session m url hdrs data timeout :
  agree (session_request session m url hdrs data timeout)
        (session_request session m url hdrs data timeout).
Proof.
  intros w w' (Hf & Hd & Hl). unfold session_request, same_store.
  cbn [fst snd files dirs net_log]. now rewrite Hl.
Qed.

Lemma agree_exists path : agree (os_path_exists path) (os_path_exists path).
Proof.
  intros w w' (Hf & Hd & Hl). unfold os_path_exists, same_store.
  cbn [fst snd]. now rewrite Hf, Hd.
Qed.

Lemma agree_makedirs path : agree (os_makedirs path) (os_makedirs path).
Proof.
  intros w w' (Hf & Hd & Hl). unfold os_makedirs, made, same_store.
  cbn [fst snd files dirs net_log]. now rewrite Hf, Hd.
Qed.

Lemma agree_write path bytes :
  agree (write_bytes path bytes) (write_bytes path bytes).
Proof.
  intros w w' (Hf & Hd & Hl). unfold write_bytes, same_store.
  rewrite Hf, Hd.
  destruct (saves os (files w') (dirs w') path bytes);
    cbn [fst snd written files dirs net_log]; now rewrite ?Hf.
Qed.

Lemma agree_read_lines path : agree (read_lines path) (read_lines path).
Proof.
  intros w w' (Hf & Hd & Hl). unfold read_lines. rewrite Hf.
  destruct (files w' !! path) as [b|]; [| now split].
  destruct (utf8_decode (map Byte.to_N b)); now split.
Qed.

Ltac sync :=
  repeat
    match goal with
    | |- agree (bind _ _) (bind _ _) => apply agree_bind; [| intros ?]
    | |- agree (ret _) (ret _) => apply agree_ret
    | |- agree return_ return_ => apply agree_return
    | |- agree (raise _) (raise _) => apply agree_raise
    | |- agree (lift _) (lift _) => apply agree_lift
    | |- agree (try_except _ _ _) (try_except _ _ _) => apply agree_try_except
    | |- agree (invoke _) (invoke _) => apply agree_invoke
    | |- agree (for_each _ _) (for_each _ _) => apply agree_for_each; intros ?
    | |- agree (_print _ _) (_print _ _) => apply agree_print
    | |- agree (py_print _) (py_print _) => apply agree_py_print
    | |- agree (session_request _ _ _ _ _ _) _ => apply agree_session_request
    | |- agree (os_path_exists _) _ => apply agree_exists
    | |- agree (os_makedirs _) _ => apply agree_makedirs
    | |- agree (write_bytes _ _) _ => apply agree_write
    | |- agree (read_lines _) _ => apply agree_read_lines
    | |- agree (if ?b then _ else _) (if ?b then _ else _) => destruct b
    | |- agree (match ?x with _ => _ end) (match ?x with _ => _ end) =>
        destruct x
    end.

Lemma download_agree i p v d n b b' :
  agree
    (download {| extension := i; proxy := p; version := v;
                 destination := d; no_cache := n; print := b |})
    (download {| extension := i; proxy := p; version := v;
                 destination := d; no_cache := n; print := b' |}).
Proof.
  unfold download, start, _download_vscode_extension, open_session, query,
    select_version, extract_version, resolve_path, fetch.
  cbn [extension proxy version destination no_cache]. cbv zeta. sync.
Qed.

(** X11. The print switch changes nothing but the output: from the same
    world, [cli] with the switch on and [cli] with it off end the same way
    and leave the same files, the same directories and the same exchanges
    with the marketplace. *)
Theorem print_switch_only_prints extension file proxy version destination
    no_cache b b' w :
  let r := cli extension file proxy version destination no_cache b w in
  let r' := cli extension file proxy version destination no_cache b' w in
  fst r = fst r'
  /\ files (snd r) = files (snd r')
  /\ dirs (snd r) = dirs (snd r')
  /\ net_log (snd r) = net_log (snd r').
Proof.
  cbv zeta.
  assert (H : agree
            (cli extension file proxy version destination no_cache b)
            (cli extension file proxy version destination no_cache b')).
  { unfold cli, download_plugins_from_file, download_line. cbv zeta. sync;
      apply download_agree. }
  exact (H w w (same_store_refl w)).
Qed.

(** ** Nothing is removed *)

Lemma grows_refl w : grows w w.
Proof. split; reflexivity. Qed.

Lemma grows_trans a b c : grows a b -> grows b c -> grows a c.
Proof. intros [H1 H2] [H3 H4]. split; etransitivity; eassumption. Qed.

Lemma grows_same w w' :
  files w' = files w -> dirs w' = dirs w -> grows w w'.
Proof. intros Hf Hd. unfold grows. now rewrite Hf, Hd. Qed.

Lemma grows_print self msg : steps grows (_print self msg).
Proof. intros w. rewrite _print_say. cbn [snd]. apply grows_same;
  [apply files_say | apply dirs_say]. Qed.

Lemma grows_py_print msg : steps grows (py_print msg).
Proof. intros w. now apply grows_same. Qed.

Lemma grows_session_request session m url hdrs data timeout :
  steps grows (session_request session m url hdrs data timeout).
Proof. intros w. now apply grows_same. Qed.

Lemma grows_exists path : steps grows (os_path_exists path).
Proof. intros w. now apply grows_same. Qed.

Lemma grows_makedirs path : steps grows (os_makedirs path).
Proof.
  intros w. split; cbn [snd os_makedirs made files dirs]; [reflexivity |].
  apply union_subseteq_r.
Qed.

Lemma grows_write path bytes : steps grows (write_bytes path bytes).
Proof.
  intros w. unfold write_bytes.
  destruct (saves os (files w) (dirs w) path bytes); cbn [snd];
    [| apply grows_refl |];
    (split; cbn [written files dirs]; [| reflexivity]);
    rewrite dom_insert; apply union_subseteq_r.
Qed.

Lemma grows_read_lines path : steps grows (read_lines path).
Proof.
  intros w. unfold read_lines. destruct (files w !! path) as [b|]; cbn [snd].
  - destruct (utf8_decode (map to_N b)); apply grows_refl.
  - apply grows_refl.
Qed.

Ltac keep :=
  repeat
    match goal with
    | |- steps _ (bind _ _) => apply (steps_bind _ grows_trans); [| intros ?]
    | |- steps _ (ret _) => apply (steps_ret _ grows_refl)
    | |- steps _ return_ => apply (steps_return _ grows_refl)
    | |- steps _ (raise _) => apply (steps_raise _ grows_refl)
    | |- steps _ (lift _) => apply (steps_lift _ grows_refl)
    | |- steps _ (try_except _ _ _) =>
        apply (steps_try_except _ grows_trans)
    | |- steps _ (invoke _) => apply steps_invoke
    | |- steps _ (for_each _ _) =>
        apply (steps_for_each _ grows_refl grows_trans); intros ?
    | |- steps _ (_print _ _) => apply grows_print
    | |- steps _ (py_print _) => apply grows_py_print
    | |- steps _ (session_request _ _ _ _ _ _) => apply grows_session_request
    | |- steps _ (os_path_exists _) => apply grows_exists
    | |- steps _ (os_makedirs _) => apply grows_makedirs
    | |- steps _ (write_bytes _ _) => apply grows_write
    | |- steps _ (read_lines _) => apply grows_read_lines
    | |- steps _ (if ?b then _ else _) => destruct b
    | |- steps _ (match ?x with _ => _ end) => destruct x
    end.

Lemma download_grows self : steps grows (download self).
Proof.
  unfold download, start, _download_vscode_extension, open_session, query,
    select_version, extract_version, resolve_path, fetch.
  cbv zeta. keep.
Qed.

(** X12. No run of the tool removes anything: whatever the arguments, the
    network and the outcome, every path that held a file before [cli]
    holds one after it, and every directory is still there. *)
Theorem nothing_removed extension file proxy version destination no_cache
    no_print w :
  let w' := snd (cli extension file proxy version destination no_cache
                   no_print w) in
  (forall path, is_Some (files w !! path) -> is_Some (files w' !! path))
  /\ (forall dir, dir ∈ dirs w -> dir ∈ dirs w').
Proof.
  cbv zeta.
  assert (H : steps grows
            (cli extension file proxy version destination no_cache no_print)).
  { unfold cli, download_plugins_from_file, download_line. cbv zeta. keep;
      apply download_grows. }
  destruct (H w) as [Hf Hd]. split.
  - intros path Hp. apply elem_of_dom. apply Hf. now apply elem_of_dom.
  - intros dir Hin. now apply Hd.
Qed.

(** ** Lines that are not identifiers *)

Lemma malformed_lines_run proxy version destination no_cache verbose lines w :
  Forall (fun line => malformed (strip line)) lines ->
  exists w',
    for_each lines (download_line proxy version destination no_cache verbose) w
    = (Next tt, w')
    /\ stdout w' =
         stdout w ++
         (if verbose
          then map (fun line => invalid_identifier (strip line))
                 (List.filter (fun line => negb (blank line)) lines)
          else [])
    /\ files w' = files w /\ dirs w' = dirs w /\ net_log w' = net_log w.
Proof.
  intros Hall. revert w. induction Hall as [|x l Hx Hl IH]; intros w.
  - exists w. destruct verbose; cbn; rewrite app_nil_r; now repeat split.
  - assert (Hcase : strip x = [] \/ strip x <> []).
    { destruct (strip x); [now left | now right]. }
    destruct Hcase as [Es | Hne].
    + rewrite (for_each_next x l _ w w)
        by (now apply download_line_blank).
      destruct (IH w) as (w' & H1 & H2 & H3).
      exists w'. split; [exact H1 |]. split; [| exact H3].
      rewrite H2. cbn [List.filter]. unfold blank at 2. now rewrite Es.
    + rewrite (for_each_next x l _ w _
                 (download_line_malformed proxy version destination no_cache
                    verbose x w Hne Hx)).
      destruct (IH (if verbose then printed w [invalid_identifier (strip x)]
                    else w)) as (w' & H1 & H2 & H3 & H4 & H5).
      exists w'. split; [exact H1 |].
      rewrite H2, H3, H4, H5.
      cbn [List.filter]. unfold blank at 2.
      destruct (strip x) as [|c s] eqn:Es; [contradiction |].
      cbn [negb map]. rewrite Es.
      destruct verbose; cbn [printed stdout files dirs net_log].
      * rewrite <- app_assoc. now repeat split.
      * now repeat split.
Qed.

(** X13. A list file in which no line is an identifier costs no request:
    blank lines are passed over in silence, every other line is reported
    as invalid, in file order and trimmed, and the run returns with the
    files, the directories and the exchange log as they were. *)
Theorem batch_of_malformed_lines file_path proxy version destination no_cache
    verbose w bytes text :
  files w !! file_path = Some bytes ->
  utf8_decode (map Byte.to_N bytes) = Some text ->
  Forall (fun line => malformed (strip line)) (readlines text) ->
  let r := run (download_plugins_from_file file_path proxy version
                  destination no_cache verbose) w in
  fst r = Returned
  /\ stdout (snd r) =
       stdout w ++
       (if verbose
        then map (fun line => invalid_identifier (strip line))
               (List.filter (fun line => negb (blank line)) (readlines text))
        else [])
  /\ files (snd r) = files w /\ dirs (snd r) = dirs w
  /\ net_log (snd r) = net_log w.
Proof.
  intros Hf Hd Hall r. subst r. unfold run.
  rewrite (batch_file_lines _ _ _ _ _ _ _ _ _ Hf Hd).
  destruct (malformed_lines_run proxy version destination no_cache verbose
              (readlines text) w Hall) as (w' & -> & H).
  cbn [fst snd]. now split.
Qed.

(** ** White space around an identifier *)

Lemma lstrip_spaces (a s : str) :
  Forall (fun c => isspace c = true) a -> lstrip (a ++ s) = lstrip s.
Proof.
  induction 1 as [|c a Hc Ha IH]; [reflexivity |].
  cbn [app lstrip]. now rewrite Hc.
Qed.

Lemma rstrip_spaces (s b : str) :
  Forall (fun c => isspace c = true) b -> rstrip (s ++ b) = rstrip s.
Proof.
  intros Hb. unfold rstrip. rewrite rev_app_distr.
  rewrite lstrip_spaces; [reflexivity |].
  apply Forall_forall. intros c Hc. rewrite Forall_forall in Hb.
  apply Hb. apply list_elem_of_In. apply list_elem_of_In in Hc.
  now apply in_rev.
Qed.

Lemma lstrip_app (s b : str) :
  lstrip s <> [] -> lstrip (s ++ b) = lstrip s ++ b.
Proof.
  induction s as [|c s IH]; cbn [app lstrip]; [contradiction |].
  destruct (isspace c); [exact IH | reflexivity].
Qed.

Lemma strip_surrounded (a s b : str) :
  Forall (fun c => isspace c = true) a ->
  Forall (fun c => isspace c = true) b ->
  strip (a ++ s ++ b) = strip s.
Proof.
  intros Ha Hb. unfold strip. rewrite lstrip_spaces by exact Ha.
  destruct (lstrip s) as [|c r] eqn:E.
  - assert (Hs : Forall (fun c => isspace c = true) s).
    { clear -E. induction s as [|x s IH]; [constructor |].
      cbn [lstrip] in E. destruct (isspace x) eqn:Ex; [| discriminate].
      constructor; [exact Ex | now apply IH]. }
    rewrite lstrip_spaces by exact Hs.
    assert (Hl : lstrip b = []).
    { rewrite <- (app_nil_r b). now rewrite lstrip_spaces. }
    now rewrite Hl.
  - rewrite lstrip_app by (rewrite E; discriminate).
    rewrite E. now apply rstrip_spaces.
Qed.

(** X14. White space around an identifier does not matter: a downloader
    given the identifier with white space before and after it runs exactly
    as the one given the identifier alone. *)
Theorem surrounding_space_ignored (a s b : str) p v d n pr w :
  Forall (fun c => isspace c = true) a ->
  Forall (fun c => isspace c = true) b ->
  download {| extension := Some (a ++ s ++ b); proxy := p; version := v;
              destination := d; no_cache := n; print := pr |} w
  = download {| extension := Some s; proxy := p; version := v;
                destination := d; no_cache := n; print := pr |} w.
Proof.
  intros Ha Hb. unfold download.
  change (default [] (extension
            {| extension := Some (a ++ s ++ b); proxy := p; version := v;
               destination := d; no_cache := n; print := pr |}))
    with (a ++ s ++ b).
  rewrite (strip_surrounded a s b Ha Hb). reflexivity.
Qed.

(** ** Where the package goes *)

Lemma startswith_vsix_name publisher extension_name version :
  startswith slash (vsix_name publisher extension_name version)
  = startswith slash publisher.
Proof. unfold vsix_name. now destruct publisher. Qed.

Lemma target_dir_not_empty destination : target_dir destination <> [].
Proof.
  unfold target_dir. destruct destination as [[|c d]|]; cbn; discriminate.
Qed.

(** X15. Where the package goes (lines 100-107): into the destination
    directory, or "extensions" when none or an empty one is given, with a
    separator added unless the directory ends with one. The one exception
    is a publisher that begins with a slash: [os.path.join] then drops the
    directory and the path is the file name alone. This is the path
    whenever path resolution gets through; where [os.makedirs] raises
    there is none. *)
Theorem resolved_path_location publisher extension_name destination version w :
  let dir := match destination with
             | Some (c :: d) => c :: d
             | _ => lit "extensions"
             end in
  let name := publisher ++ lit "." ++ extension_name ++ lit "-" ++ version
              ++ lit ".vsix" in
  fst (resolve_path publisher extension_name destination version w)
  = if resolvable w dir
    then Next (if startswith slash publisher then name
               else if endswith slash dir then dir ++ name
               else dir ++ lit "/" ++ name)
    else Raise OSError.
Proof.
  cbv zeta. rewrite resolve_path_run. cbn [fst].
  assert (Hdir : target_dir destination
                 = match destination with
                   | Some (c :: d) => c :: d
                   | _ => lit "extensions"
                   end).
  { unfold target_dir. now destruct destination as [[|c d]|]. }
  rewrite <- Hdir.
  destruct (resolvable w (target_dir destination)); [| reflexivity].
  f_equal.
  unfold os_path_join. rewrite startswith_vsix_name.
  destruct (startswith slash publisher); [reflexivity |].
  pose proof (target_dir_not_empty destination) as Hne.
  destruct (target_dir destination) as [|c d]; [contradiction |].
  reflexivity.
Qed.

(** X16. Two versions of one extension never share a file: for a given
    directory, publisher and name the resolved paths of two versions are
    equal only if the versions are. *)
Theorem versions_have_distinct_files dir publisher extension_name v v' :
  os_path_join dir (vsix_name publisher extension_name v)
  = os_path_join dir (vsix_name publisher extension_name v')
  <-> v = v'.
Proof.
  split; [| now intros ->].
  unfold os_path_join. rewrite !startswith_vsix_name.
  assert (Hname : vsix_name publisher extension_name v
                  = vsix_name publisher extension_name v' -> v = v').
  { unfold vsix_name. intros H.
    apply app_inv_head in H. apply app_inv_head in H.
    apply app_inv_head in H. apply app_inv_head in H.
    now apply app_inv_tail in H. }
  destruct (startswith slash publisher); [exact Hname |].
  destruct (match dir with [] => true | _ => endswith slash dir end);
    intros H; apply app_inv_head in H; [now apply Hname |].
  apply app_inv_head in H. now apply Hname.
Qed.

(** X17. What the marketplace is asked for is the trimmed identifier: for
    an identifier that [download] accepts, the first exchange it adds to
    the log is a POST whose document names, as the value of its one
    criterion, the raw identifier with its surrounding white space
    removed. *)
Theorem query_names_trimmed_identifier self w :
  let ext := strip (default [] (extension self)) in
  ~ malformed ext ->
  exists post rep rest,
    net_log (snd (download self w)) = net_log w ++ (post, rep) :: rest
    /\ req_method post = POST
    /\ req_data post =
       Some (json_dumps
         (JObj [(lit "filters",
                 JArr [JObj [(lit "criteria",
                   JArr [JObj [(lit "filterType", JInt 7);
                               (lit "value", JStr ext)]])]]);
                (lit "flags", JInt 914)])).
Proof.
  cbv zeta. intros Hm.
  destruct (download_cases self w)
    as [[Hbad _] | [_ (p & n & [Hext Hdot] & _ & _ & Hd)]]; [contradiction |].
  rewrite Hd. unfold start, bind. rewrite !_print_say, snd_invoke.
  set (w0 := say self _ (say self _ (say self _ w))).
  assert (H0 : net_log w0 = net_log w).
  { unfold w0. now rewrite !net_log_say. }
  pose proof (pipeline_log self p n (proxy self) (version self)
                (destination self) (no_cache self) w0) as H.
  cbv zeta in H. rewrite <- H0.
  exists (post_request (session_of (proxy self)) p n).
  destruct H as [H | (v & rep' & H)];
    rewrite H.
  - eexists _, []. split; [reflexivity |]. split; [reflexivity |].
    unfold post_request, query_document. cbn [req_data]. now rewrite Hext.
  - eexists _, [_]. split; [reflexivity |]. split; [reflexivity |].
    unfold post_request, query_document. cbn [req_data]. now rewrite Hext.
Qed.

(** ** The descent and the chain of lookups *)

(** X18. The descent of lines 79-98, written with [get], [or []], [[0]]
    and a [try], computes what the chain of optional lookups
    [results[0].extensions[0].versions[0].version] computes: it yields the
    version the chain finds, and that version is never empty; where the
    chain finds none it reports "Extension not found" and returns, leaving
    the world as it is but for the report, except when a dict stands where
    it subscripts with [0], and then it raises [KeyError]. *)
Theorem descent_follows_chain self publisher extension_name d w :
  extract_version self publisher extension_name d w
  = match latest_version d with
    | Some v => (Next v, w)
    | None =>
        if object_for_list d then (Raise KeyError, w)
        else (Return,
              say self [extension_not_found publisher extension_name] w)
    end
  /\ forall v, latest_version d = Some v -> truthy v = true.
Proof.
  split; [apply extract_version_run |].
  intros v. apply latest_version_truthy.
Qed.

(** X19. A list file that is not there: whatever the verbosity, the run
    prints "File not found: <path>", returns, and touches neither the
    files, the directories nor the network. *)
Theorem missing_list_file file_path proxy version destination no_cache
    verbose w :
  present w file_path = false ->
  let r := run (download_plugins_from_file file_path proxy version
                  destination no_cache verbose) w in
  fst r = Returned
  /\ stdout (snd r) = stdout w ++ [lit "File not found: " ++ file_path]
  /\ files (snd r) = files w /\ dirs (snd r) = dirs w
  /\ net_log (snd r) = net_log w.
Proof.
  intros Hp r. subst r. unfold run.
  rewrite batch_file_missing by exact Hp. now repeat split.
Qed.

End Pipeline.

(** ** Examples *)

Example strip_example :
  strip (lit "  ms-python.python " ++ [10]) = lit "ms-python.python".
Proof. reflexivity. Qed.

Example split_first_dot_only :
  split1 dot (lit "a.b.c") = [lit "a"; lit "b.c"].
Proof. reflexivity. Qed.

Example readlines_example :
  readlines (lit "pub.a" ++ [13; 10] ++ lit "pub.b") = [lit "pub.a" ++ [10]; lit "pub.b"].
Proof. reflexivity. Qed.

Example join_example :
  os_path_join (lit "extensions") (lit "ms-python.python-2024.1.0.vsix")
  = lit "extensions/ms-python.python-2024.1.0.vsix".
Proof. reflexivity. Qed.

Example latest_version_example :
  latest_version (document (lit "2024.1.0")) = Some (JStr (lit "2024.1.0")).
Proof. reflexivity. Qed.

Example end_to_end :
  let r := run (download dumps_any str_any
                  (server (ok (document (lit "2024.1.0"))) (package zip_bytes)) posix
                  (downloader "ms-python.python" None false)) empty_world in
  fst r = Returned
  /\ files (snd r) !! lit "extensions/ms-python.python-2024.1.0.vsix" = Some zip_bytes
  /\ map (fun x => req_url (fst x)) (net_log (snd r))
     = [api_url;
        lit "https://ms-python.gallery.vsassets.io/_apis/public/gallery/publisher/ms-python/extension/python/2024.1.0/assetbyname/Microsoft.VisualStudio.Services.VSIXPackage"].
Proof. vm_compute. repeat split; reflexivity. Qed.

(** The second end-to-end scenario of the specification: a malformed line
    is reported and the next line is still downloaded. *)
Example batch_malformed_then_valid :
  let w := {| files := {[ lit "list.txt" :=
                list_byte_of_string "badid" ++ [x0a]
                ++ list_byte_of_string "pub.ext" ++ [x0a] ]};
              dirs := ∅; stdout := []; net_log := [] |} in
  let r := run (download_plugins_from_file dumps_any str_any
                  (server (ok (document (lit "1.0"))) (package zip_bytes)) posix
                  (lit "list.txt") None None None false true) w in
  fst r = Returned
  /\ hd_error (stdout (snd r))
     = Some (lit "Invalid extension identifier: badid. Use the form publisher.extension")
  /\ files (snd r) !! lit "extensions/pub.ext-1.0.vsix" = Some zip_bytes.
Proof. vm_compute. repeat split; reflexivity. Qed.

(** A destination two levels deep: [os.makedirs] makes both levels. *)
Example nested_destination :
  let r := resolve_path posix (lit "pub") (lit "ext") (Some (lit "a/b"))
             (lit "1.0") empty_world in
  fst r = Next (lit "a/b/pub.ext-1.0.vsix")
  /\ present (snd r) (lit "a") = true
  /\ present (snd r) (lit "a/b") = true.
Proof. cbv zeta. repeat split; vm_compute; reflexivity. Qed.

(** A destination that is a regular file: something is there, so nothing
    is made, and [open] then refuses the path below it. *)
Example destination_is_a_file :
  let w := {| files := {[ lit "out" := [] ]}; dirs := ∅; stdout := [];
              net_log := [] |} in
  let r := run (download dumps_any str_any
                  (server (ok (document (lit "1.0"))) (package zip_bytes))
                  posix
                  {| extension := Some (lit "pub.ext"); proxy := None;
                     version := None; destination := Some (lit "out");
                     no_cache := false; print := true |}) w in
  fst r = Raised OSError
  /\ map (fun x => req_method (fst x)) (net_log (snd r)) = [POST; GET]
  /\ files (snd r) !! lit "out/pub.ext-1.0.vsix" = None.
Proof. cbv zeta. repeat split; vm_compute; reflexivity. Qed.

(** Where the operating system refuses the directory, the run ends with
    its [OSError] before the download is asked for. *)
Example directory_refused :
  let r := run (download dumps_any str_any
                  (server (ok (document (lit "1.0"))) (package zip_bytes))
                  read_only (downloader "pub.ext" None false)) empty_world in
  fst r = Raised OSError
  /\ map (fun x => req_method (fst x)) (net_log (snd r)) = [POST].
Proof. cbv zeta. repeat split; vm_compute; reflexivity. Qed.

(** A body nested too deep: the [RecursionError] of [response.json()] is
    no [ValueError] and leaves [download], with an override as
    without. *)
Example nested_body_raises :
  fst (run (download dumps_any str_any (server too_deep (package zip_bytes))
              posix (downloader "pub.ext" (Some (lit "1.0")) false))
         empty_world)
  = Raised RecursionError.
Proof. vm_compute. reflexivity. Qed.

(** ** The descent on an object where a list is expected *)

(** C3. The answer [{"results": {"a": 1}}] has status 200 and parses, and
    its level [results[0]] is absent; the claim asks for "Extension not
    found" and a normal return. The run raises [KeyError] instead: the
    subscript [results[0]] on a dict raises it, and the [except] clause
    lists [AttributeError], [IndexError] and [TypeError] only. Nothing is
    reported after "Querying Marketplace API...". *)
Theorem C3_results_object_raises :
  let r := run (download dumps_any str_any
                  (server (ok results_object) (package zip_bytes)) posix
                  (downloader "pub.ext" None false)) empty_world in
  latest_version results_object = None
  /\ fst r = Raised KeyError
  /\ stdout (snd r)
     = [times 61 50; lit "Downloading pub.ext"; times 61 50;
        lit "Querying Marketplace API..."]
  /\ map (fun x => req_method (fst x)) (net_log (snd r)) = [POST].
Proof. vm_compute. repeat split; reflexivity. Qed.

(** C9. A list file with the lines [pub.a] and [pub.b]; the marketplace
    answers the first query with [{"results": {"a": 1}}] and would answer
    any later one with a version and a package. The claim asks that the
    failure of [pub.a] not prevent the run for [pub.b]. The [KeyError] of
    the first run leaves [download_plugins_from_file]: one exchange is in
    the log, nothing about [pub.b] is printed and no file is written. *)
Theorem C9_batch_stops_on_raise :
  let w := {| files := {[ lit "list.txt" := two_lines ]};
              dirs := ∅; stdout := []; net_log := [] |} in
  let net := first_then (ok results_object)
               (server (ok (document (lit "1.0"))) (package zip_bytes)) in
  let r := run (download_plugins_from_file dumps_any str_any net posix
                  (lit "list.txt") None None None false true) w in
  fst r = Raised KeyError
  /\ stdout (snd r)
     = [times 61 50; lit "Downloading pub.a"; times 61 50;
        lit "Querying Marketplace API..."]
  /\ map (fun x => req_method (fst x)) (net_log (snd r)) = [POST]
  /\ files (snd r) !! lit "extensions/pub.b-1.0.vsix" = None
  /\ fst (run (download dumps_any str_any
                 (server (ok (document (lit "1.0"))) (package zip_bytes)) posix
                 (downloader "pub.b" None false)) w) = Returned.
Proof. vm_compute. repeat split; reflexivity. Qed.

(** ** The claims at concrete runs *)

(** The metadata call of [pub.ext] times out. *)
Lemma C8_witness :
  server timed_out (package zip_bytes) (net_log empty_world)
    (post_request dumps_any (session_of None) (lit "pub") (lit "ext"))
  = RequestException (lit "timed out")
  /\ let r := run (_download_vscode_extension dumps_any str_any
                     (server timed_out (package zip_bytes)) posix
                     (downloader "pub.ext" None false) (lit "pub") (lit "ext")
                     None None (Some (lit "out")) false) empty_world in
     fst r = Returned
     /\ map (fun x => req_method (fst x)) (net_log (snd r)) = [POST]
     /\ files (snd r) = ∅ /\ dirs (snd r) = ∅.
Proof.
  split; [reflexivity |].
  destruct (C8_metadata_transport_failure dumps_any str_any
              (server timed_out (package zip_bytes)) posix
              (downloader "pub.ext" None false) (lit "pub") (lit "ext")
              None None (Some (lit "out")) false empty_world (lit "timed out")
              eq_refl)
    as (Hr & _ & _ & Hlog & _ & Hf & Hd).
  cbv zeta. rewrite Hr, Hlog, Hf, Hd. repeat split; reflexivity.
Defined.

(** The download address tells the version. *)
Lemma download_url_version publisher extension_name v v' :
  download_url publisher extension_name v
  = download_url publisher extension_name v' -> v = v'.
Proof.
  unfold download_url. intros H.
  repeat (apply app_inv_head in H). now apply app_inv_tail in H.
Qed.

(** [pub.ext] at version 1.0: the package is answered with status 200 and
    the operating system stores it. *)
Lemma C7_witness :
  let net := server (ok (document (lit "1.0"))) (package zip_bytes) in
  let get := get_request (session_of None) (lit "pub") (lit "ext") (lit "1.0") in
  let r := _download_vscode_extension dumps_any str_any net posix
             (downloader "pub.ext" None false) (lit "pub") (lit "ext")
             None None None false empty_world in
  saves posix (files empty_world)
    (dirs (ensured posix empty_world (lit "extensions")))
    (lit "extensions/pub.ext-1.0.vsix") zip_bytes = Stored
  /\ fst r = Next tt
  /\ files (snd r) !! lit "extensions/pub.ext-1.0.vsix" = Some zip_bytes.
Proof.
  cbv zeta. split; [reflexivity |].
  destruct (C7_artifact_file dumps_any str_any
              (server (ok (document (lit "1.0"))) (package zip_bytes)) posix
              (downloader "pub.ext" None false) (lit "pub") (lit "ext")
              None None None false empty_world
              [(post_request dumps_any (session_of None) (lit "pub") (lit "ext"),
                ok (document (lit "1.0")));
               (get_request (session_of None) (lit "pub") (lit "ext") (lit "1.0"),
                package zip_bytes)]
              (get_request (session_of None) (lit "pub") (lit "ext") (lit "1.0"))
              {| status_code := 200; content := zip_bytes;
                 response_json := Exc ValueError |})
    as (version & Hurl & _ & Hfile).
  - vm_compute. reflexivity.
  - right. left. reflexivity.
  - reflexivity.
  - apply download_url_version in Hurl. subst version.
    change (saves posix (files empty_world)
              (dirs (ensured posix empty_world (lit "extensions")))
              (lit "extensions/pub.ext-1.0.vsix") zip_bytes)
      with Stored in Hfile.
    destruct Hfile as (Hf & _ & Hl). split; [exact Hf | exact Hl].
Defined.

(** C7, as stated, fails where the operating system does not let the file
    be written. For the identifier [pub.sub/ext] the name is [sub/ext] and
    the path [extensions/pub.sub/ext-1.0.vsix]; path resolution makes
    [extensions] only, so the directory [extensions/pub.sub] is missing and
    [open] raises. The GET has been answered with status 200, yet no file
    holds the bytes and the run does not end normally. *)
Lemma C7_counterexample :
  let r := run (download dumps_any str_any
                  (server (ok (document (lit "1.0"))) (package zip_bytes))
                  posix (downloader "pub.sub/ext" None false)) empty_world in
  map (fun x => (req_method (fst x), snd x)) (net_log (snd r))
  = [(POST, ok (document (lit "1.0"))); (GET, package zip_bytes)]
  /\ os_path_join (lit "extensions")
       (vsix_name (lit "pub") (lit "sub/ext") (lit "1.0"))
     = lit "extensions/pub.sub/ext-1.0.vsix"
  /\ files (snd r) !! lit "extensions/pub.sub/ext-1.0.vsix" = None
  /\ files (snd r) = ∅
  /\ present (snd r) (lit "extensions") = true
  /\ present (snd r) (lit "extensions/pub.sub") = false
  /\ fst r = Raised OSError.
Proof. cbv zeta. repeat split; vm_compute; reflexivity. Qed.

(** [pub.ext] with the override 9.9, whatever version the answer names:
    the GET, when there is one, asks for 9.9. *)
Lemma C4_witness :
  let r := _download_vscode_extension dumps_any str_any
             (server (ok (document (lit "1.0"))) (package zip_bytes)) posix
             (downloader "pub.ext" (Some (lit "9.9")) false) (lit "pub")
             (lit "ext") None (Some (lit "9.9")) None false empty_world in
  let post := post_request dumps_any (session_of None) (lit "pub") (lit "ext") in
  let get := get_request (session_of None) (lit "pub") (lit "ext") (lit "9.9") in
  exists rep',
    net_log (snd r) = [(post, ok (document (lit "1.0")))]
    \/ net_log (snd r) = [(post, ok (document (lit "1.0"))); (get, rep')].
Proof.
  cbv zeta.
  pose proof (C4_version_override dumps_any str_any
                (server (ok (document (lit "1.0"))) (package zip_bytes))
                posix (downloader "pub.ext" (Some (lit "9.9")) false)
                (lit "pub") (lit "ext") None (Some (lit "9.9")) None false
                empty_world) as H.
  cbv zeta in H. destruct H as [_ H].
  change (truthy_opt (Some (lit "9.9"))) with true in H.
  destruct H as [H _]. exact H.
Defined.

(** [pub.ext] 1.0 on a fresh store: the POST and the GET. *)
Lemma C6_witness :
  let r := _download_vscode_extension dumps_any str_any
             (server (ok (document (lit "1.0"))) (package zip_bytes)) posix
             (downloader "pub.ext" None false) (lit "pub") (lit "ext")
             None None None false empty_world in
  exists rep',
    net_log (snd r)
    = [(post_request dumps_any (session_of None) (lit "pub") (lit "ext"),
        ok (document (lit "1.0")));
       (get_request (session_of None) (lit "pub") (lit "ext") (lit "1.0"),
        rep')].
Proof.
  cbv zeta.
  apply (proj1 (proj2 (C6_requests dumps_any str_any
                  (server (ok (document (lit "1.0"))) (package zip_bytes))
                  posix (downloader "pub.ext" None false) (lit "pub")
                  (lit "ext") None None None false empty_world)
           {| status_code := 200; content := [];
              response_json := Ok (document (lit "1.0")) |}
           (document (lit "1.0")) (JStr (lit "1.0"))
           eq_refl eq_refl eq_refl eq_refl)).
  split; [vm_compute; reflexivity | right; vm_compute; reflexivity].
Defined.

(** A command line with the identifier only. *)
Lemma C1_witness :
  let c := {| given_extension := Some (lit "pub.ext"); given_version := None;
              given_destination := None; given_no_cache := false;
              given_no_print := None; given_file := None;
              given_proxy := None |} in
  given_no_print c = None
  /\ exists first rest,
       stdout (snd (main dumps_any str_any (server timed_out timed_out) posix
                      c empty_world))
       = first :: rest.
Proof.
  cbv zeta. split; [reflexivity |].
  destruct (C1_messages_by_default dumps_any str_any
              (server timed_out timed_out) posix
              {| given_extension := Some (lit "pub.ext");
                 given_version := None; given_destination := None;
                 given_no_cache := false; given_no_print := None;
                 given_file := None; given_proxy := None |} empty_world
              eq_refl)
    as (_ & _ & _ & _ & _ & _ & H).
  exact (H eq_refl).
Defined.

(** C1, as stated, fails: without [--no-print] on the command line the
    run for [ms-python.python] prints five lines, the last one the report
    of a failed metadata call. *)
Lemma C1_counterexample :
  let c := {| given_extension := Some (lit "ms-python.python");
              given_version := None; given_destination := None;
              given_no_cache := false; given_no_print := None;
              given_file := None; given_proxy := None |} in
  let r := run (main dumps_any str_any (server timed_out timed_out) posix c)
             empty_world in
  stdout (snd r)
  = [times 61 50; lit "Downloading ms-python.python"; times 61 50;
     lit "Querying Marketplace API...";
     lit "Failed to query Marketplace API: timed out"]
  /\ stdout (snd r) <> stdout empty_world.
Proof. vm_compute. split; [reflexivity | discriminate]. Qed.

(** C4, as stated, fails for the empty override: the run does not use it
    as the version but the 1.0 it finds in the answer, in the download
    address and in the file name. *)
Lemma C4_counterexample :
  let r := _download_vscode_extension dumps_any str_any
             (server (ok (document (lit "1.0"))) (package zip_bytes)) posix
             (downloader "pub.ext" (Some []) false) (lit "pub") (lit "ext")
             None (Some []) None false empty_world in
  map (fun x => req_url (fst x)) (net_log (snd r))
  = [api_url; download_url (lit "pub") (lit "ext") (lit "1.0")]
  /\ download_url (lit "pub") (lit "ext") (lit "1.0")
     <> download_url (lit "pub") (lit "ext") []
  /\ files (snd r) !! lit "extensions/pub.ext-1.0.vsix" = Some zip_bytes
  /\ files (snd r) !! lit "extensions/pub.ext-.vsix" = None.
Proof. vm_compute. repeat split; try reflexivity. discriminate. Qed.

(** C10, as stated, fails when the value of [--file] is empty: the
    positional argument is not ignored, the pipeline runs for it and
    reports it, which is not what the batch run for that file does. *)
Lemma C10_counterexample :
  let r := cli dumps_any str_any (server timed_out timed_out) posix
             (Some (lit "badid")) (Some []) None None None false true
             empty_world in
  stdout (snd r)
  = [lit "Invalid extension identifier: badid. Use the form publisher.extension"]
  /\ r <> invoke (download_plugins_from_file dumps_any str_any
                    (server timed_out timed_out) posix [] None None None
                    false true)
            empty_world.
Proof.
  vm_compute. split; [reflexivity |]. intros H.
  injection H as H. discriminate.
Qed.


(** ** The further properties at concrete runs *)

(** The marketplace answers 404. *)
Lemma metadata_status_aborts_witness :
  let r := run (_download_vscode_extension dumps_any str_any
                  (server (status_only 404) (package zip_bytes)) posix
                  (downloader "pub.ext" None false) (lit "pub") (lit "ext")
                  None None None false) empty_world in
  fst r = Returned /\ files (snd r) = ∅ /\ dirs (snd r) = ∅.
Proof.
  destruct (metadata_status_aborts dumps_any str_any
              (server (status_only 404) (package zip_bytes)) posix
              (downloader "pub.ext" None false) (lit "pub") (lit "ext")
              None None None false empty_world
              {| status_code := 404; content := [];
                 response_json := Exc ValueError |}
              eq_refl ltac:(discriminate))
    as (Hr & _ & Hf & Hd).
  cbv zeta. rewrite Hf, Hd, Hr. now repeat split.
Defined.

(** The marketplace answers 200 with a body that is no JSON. *)
Lemma metadata_unparsable_aborts_witness :
  let r := run (_download_vscode_extension dumps_any str_any
                  (server (package []) (package zip_bytes)) posix
                  (downloader "pub.ext" None false) (lit "pub") (lit "ext")
                  None None None false) empty_world in
  fst r = Returned /\ files (snd r) = ∅ /\ dirs (snd r) = ∅.
Proof.
  destruct (metadata_unparsable_aborts dumps_any str_any
              (server (package []) (package zip_bytes)) posix
              (downloader "pub.ext" None false) (lit "pub") (lit "ext")
              None None None false empty_world
              {| status_code := 200; content := [];
                 response_json := Exc ValueError |}
              eq_refl eq_refl eq_refl)
    as (Hr & _ & Hf & Hd).
  cbv zeta. rewrite Hf, Hd, Hr. now repeat split.
Defined.

(** The download of [pub.ext] 1.0 times out. *)
Lemma download_transport_failure_witness :
  let r :=
    (let! file_path :=
       resolve_path posix (lit "pub") (lit "ext") None (lit "1.0") in
     fetch (server (ok (document (lit "1.0"))) timed_out) posix
       (downloader "pub.ext" None false) (session_of None)
       (lit "pub") (lit "ext") (lit "1.0") file_path false) empty_world in
  fst r = Return /\ files (snd r) = ∅
  /\ present (snd r) (lit "extensions") = true.
Proof.
  pose proof (download_transport_failure
                (server (ok (document (lit "1.0"))) timed_out) posix
                (downloader "pub.ext" None false) (session_of None)
                (lit "pub") (lit "ext") None (lit "1.0") false empty_world
                (lit "timed out") (or_intror eq_refl) eq_refl) as H.
  cbv zeta in H.
  change (resolvable posix empty_world (target_dir None)) with true in H.
  destruct H as (Hr & _ & _ & Hf & Hp).
  cbv zeta. split; [exact Hr |]. split; [exact Hf | exact Hp].
Defined.

(** [pub.ext] 1.0 is downloaded into the directory [extensions], then
    asked for again. *)
Lemma downloaded_then_cached_witness :
  let w := {| files := ∅; dirs := {[ lit "extensions" ]}; stdout := [];
              net_log := [] |} in
  let w1 := snd (fetch (server (ok (document (lit "1.0"))) (package zip_bytes))
                   posix (downloader "pub.ext" None false) (session_of None)
                   (lit "pub") (lit "ext") (lit "1.0")
                   (lit "extensions/pub.ext-1.0.vsix") false w) in
  files w1 !! lit "extensions/pub.ext-1.0.vsix" = Some zip_bytes.
Proof.
  exact (proj1 (downloaded_then_cached
                  (server (ok (document (lit "1.0"))) (package zip_bytes))
                  posix (downloader "pub.ext" None false) (session_of None)
                  (lit "pub") (lit "ext") (lit "1.0")
                  (lit "extensions/pub.ext-1.0.vsix") false
                  {| files := ∅; dirs := {[ lit "extensions" ]};
                     stdout := []; net_log := [] |}
                  {| status_code := 200; content := zip_bytes;
                     response_json := Exc ValueError |}
                  (or_intror eq_refl) eq_refl eq_refl eq_refl)).
Defined.


(** The list [pub.a], [pub.b] and an answer with a dict under [results]. *)
Lemma batch_raise_cases_witness :
  let w := {| files := {[ lit "list.txt" := two_lines ]};
              dirs := ∅; stdout := []; net_log := [] |} in
  fst (run (download_plugins_from_file dumps_any str_any
              (server (ok results_object) (package zip_bytes)) posix
              (lit "list.txt") None None None false true) w)
  = Raised KeyError
  /\ present w (lit "list.txt") = true.
Proof.
  cbv zeta.
  assert (Hr : fst (run (download_plugins_from_file dumps_any str_any
                           (server (ok results_object) (package zip_bytes))
                           posix (lit "list.txt") None None None false true)
                      {| files := {[ lit "list.txt" := two_lines ]};
                         dirs := ∅; stdout := []; net_log := [] |})
               = Raised KeyError) by (vm_compute; reflexivity).
  split; [exact Hr |].
  pose proof (batch_raise_cases dumps_any str_any
                (server (ok results_object) (package zip_bytes)) posix
                (lit "list.txt") None None None false true
                {| files := {[ lit "list.txt" := two_lines ]};
                   dirs := ∅; stdout := []; net_log := [] |} KeyError) as H.
  cbv zeta in H. exact (proj1 (H Hr)).
Defined.

(** A downloader with the print switch off. *)
Lemma quiet_download_witness :
  stdout (snd (download dumps_any str_any
                 (server (ok (document (lit "1.0"))) (package zip_bytes))
                 posix
                 {| extension := Some (lit "pub.ext"); proxy := None;
                    version := None; destination := None;
                    no_cache := false; print := false |} empty_world))
  = [].
Proof.
  exact (quiet_download dumps_any str_any
           (server (ok (document (lit "1.0"))) (package zip_bytes)) posix
           {| extension := Some (lit "pub.ext"); proxy := None;
              version := None; destination := None;
              no_cache := false; print := false |} empty_world eq_refl).
Defined.

(** A list file without an identifier in it. *)
Lemma batch_of_malformed_lines_witness :
  let w := {| files := {[ lit "list.txt" := no_identifiers ]};
              dirs := ∅; stdout := []; net_log := [] |} in
  let r := run (download_plugins_from_file dumps_any str_any
                  (server timed_out timed_out) posix (lit "list.txt") None
                  None None false true) w in
  fst r = Returned
  /\ stdout (snd r)
     = [lit "Invalid extension identifier: badid. Use the form publisher.extension";
        lit "Invalid extension identifier: nodot. Use the form publisher.extension"]
  /\ net_log (snd r) = [].
Proof.
  assert (Hno : forall s : str, contains dot s = false -> malformed s).
  { intros s Hs. left. intros Hin. apply contains_In in Hin. congruence. }
  destruct (batch_of_malformed_lines dumps_any str_any
              (server timed_out timed_out) posix (lit "list.txt") None None
              None false true
              {| files := {[ lit "list.txt" := no_identifiers ]};
                 dirs := ∅; stdout := []; net_log := [] |}
              no_identifiers
              (lit "badid" ++ [10; 10] ++ lit "nodot" ++ [10])%N)
    as (Hr & Hs & _ & _ & Hl).
  - apply lookup_singleton_eq.
  - reflexivity.
  - constructor; [apply Hno; reflexivity |].
    constructor; [apply Hno; reflexivity |].
    constructor; [apply Hno; reflexivity |].
    constructor.
  - cbv zeta. split; [exact Hr |]. split; [exact Hs | exact Hl].
Defined.

(** The identifier [pub.ext] between a space and a line feed. *)
Lemma surrounding_space_ignored_witness :
  download dumps_any str_any (server timed_out timed_out) posix
    {| extension := Some ([32] ++ lit "pub.ext" ++ [10])%N; proxy := None;
       version := None; destination := None; no_cache := false;
       print := true |} empty_world
  = download dumps_any str_any (server timed_out timed_out) posix
      {| extension := Some (lit "pub.ext"); proxy := None;
         version := None; destination := None; no_cache := false;
         print := true |} empty_world.
Proof.
  apply (surrounding_space_ignored dumps_any str_any
           (server timed_out timed_out) posix [32%N] (lit "pub.ext") [10%N]);
    repeat constructor.
Defined.

(** The identifier [pub.ext] after a space. *)
Lemma query_names_trimmed_identifier_witness :
  exists post rep rest,
    net_log (snd (download dumps_any str_any
                    (server (ok (document (lit "1.0"))) (package zip_bytes))
                    posix (downloader " pub.ext" None false) empty_world))
    = (post, rep) :: rest
    /\ req_method post = POST.
Proof.
  destruct (query_names_trimmed_identifier dumps_any str_any
              (server (ok (document (lit "1.0"))) (package zip_bytes)) posix
              (downloader " pub.ext" None false) empty_world)
    as (post & rep & rest & Hlog & Hm & _).
  - apply (first_dot_well_formed _ (lit "pub") (lit "ext")).
    + split; [reflexivity |].
      intros Hin. apply contains_In in Hin. discriminate.
    + discriminate.
    + discriminate.
  - exists post, rep, rest. split; [exact Hlog | exact Hm].
Defined.

(** The marketplace answers [{"results": []}]. *)
Lemma not_found_run_witness :
  let r := run (_download_vscode_extension dumps_any str_any
                  (server (ok no_results) (package zip_bytes)) posix
                  (downloader "pub.ext" None false) (lit "pub") (lit "ext")
                  None None None false) empty_world in
  fst r = Returned /\ files (snd r) = ∅ /\ dirs (snd r) = ∅.
Proof.
  destruct (not_found_run dumps_any str_any
              (server (ok no_results) (package zip_bytes)) posix
              (downloader "pub.ext" None false) (lit "pub") (lit "ext")
              None None None false empty_world
              {| status_code := 200; content := [];
                 response_json := Ok no_results |} no_results
              eq_refl eq_refl eq_refl eq_refl eq_refl eq_refl)
    as (Hr & _ & Hf & Hd).
  cbv zeta. rewrite Hf, Hd, Hr. now repeat split.
Defined.

(** No list file in an empty store. *)
Lemma missing_list_file_witness :
  let r := run (download_plugins_from_file dumps_any str_any
                  (server timed_out timed_out) posix (lit "list.txt") None
                  None None false false) empty_world in
  fst r = Returned /\ stdout (snd r) = [lit "File not found: list.txt"].
Proof.
  destruct (missing_list_file dumps_any str_any (server timed_out timed_out)
              posix (lit "list.txt") None None None false false empty_world)
    as (Hr & Hs & _).
  - vm_compute. reflexivity.
  - cbv zeta. split; [exact Hr | exact Hs].
Defined.
